(** * dedicatus: the inventory store and the knowledge-graph resolver

    A shallow embedding of [models/inventory.go] and of the
    knowledge-graph helper of package [utils], together with the
    properties of the catalogue that the design document states.

    The Go code talks to four outside services: the datastore (through
    [nds]), memcache, the knowledge-graph search API and the Telegram
    file API.  Each of them is modelled by the part of its behaviour
    the code depends on; what they answer, and whether they fail, is
    read from an environment record, so that every exit path of the Go
    functions can be taken in the model. *)

From Stdlib Require Import ZArith String Ascii List Lia Bool.
From stdpp Require Import base option list strings gmap sorting.

Local Open Scope string_scope.
Local Open Scope Z_scope.

(** ** Go's [int] and package [strconv] *)

Module Go.

(** [int] is 64 bits wide on the platforms App Engine runs on. *)
Definition intSize : Z := 64.
Definition MaxInt : Z := 2 ^ 63 - 1.
Definition MinInt : Z := - 2 ^ 63.
Definition MaxInt32 : Z := 2 ^ 31 - 1.
Definition MaxUint64 : Z := 2 ^ 64 - 1.

(** Two's complement wrap-around of a mathematical integer into [int]. *)
Definition wrap (z : Z) : Z := (z + 2 ^ 63) mod 2 ^ 64 - 2 ^ 63.

(** [a + b] on [int] (and on [int64]). *)
Definition add (a b : Z) : Z := wrap (a + b).

Definition in_range (z : Z) : Prop := MinInt <= z <= MaxInt.

(** The errors of [strconv]. *)
Inductive NumError := ErrSyntax | ErrRange.

Definition is_digit (c : ascii) : bool :=
  let n := Z.of_N (N_of_ascii c) in (48 <=? n) && (n <=? 57).

Definition digit_val (c : ascii) : Z := Z.of_N (N_of_ascii c) - 48.

(** The digit loop of [strconv.ParseUint(s, 10, 64)]: [n] is the value
    read so far.  A character that is not a digit is a syntax error
    with value 0; a value that does not fit 64 bits is a range error
    with value [MaxUint64].  The scan stops at the first of the two. *)
Fixpoint parseUint_loop (s : string) (n : Z) : Z * option NumError :=
  match s with
  | EmptyString => (n, None)
  | String c s' =>
      if negb (is_digit c) then (0, Some ErrSyntax)
      else if MaxUint64 / 10 + 1 <=? n then (MaxUint64, Some ErrRange)
      else
        let n1 := n * 10 + digit_val c in
        if MaxUint64 <? n1 then (MaxUint64, Some ErrRange)
        else parseUint_loop s' n1
  end.

Definition ParseUint (s : string) : Z * option NumError :=
  match s with
  | EmptyString => (0, Some ErrSyntax)
  | _ => parseUint_loop s 0
  end.

(** [strconv.ParseInt(s, 10, 0)]. *)
Definition ParseInt (s : string) : Z * option NumError :=
  match s with
  | EmptyString => (0, Some ErrSyntax)
  | String c s' =>
      let neg := Ascii.eqb c "-" in
      let body := if Ascii.eqb c "+" || neg then s' else s in
      match ParseUint body with
      | (un, Some ErrSyntax) => (0, Some ErrSyntax)
      | (un, _) =>
          let cutoff := 2 ^ 63 in
          if negb neg && (cutoff <=? un) then (MaxInt, Some ErrRange)
          else if neg && (cutoff <? un) then (MinInt, Some ErrRange)
          else (if neg then - un else un, None)
      end
  end.

(** [strconv.Atoi]: the fast path of the library computes the same
    value as [ParseInt] on the strings it accepts. *)
Definition Atoi (s : string) : Z * option NumError := ParseInt s.

(** [strconv.Itoa]: the decimal digits of a non-negative number, most
    significant first.  [fuel] bounds the number of digits. *)
Fixpoint digits (fuel : nat) (n : Z) (acc : string) : string :=
  match fuel with
  | O => acc
  | S fuel' =>
      let acc' := String (ascii_of_N (Z.to_N (48 + n mod 10))) acc in
      if n <? 10 then acc' else digits fuel' (n / 10) acc'
  end.

Definition Itoa (i : Z) : string :=
  if i <? 0 then String "-" (digits 20 (- i) "") else digits 20 i "".

(** The values of Go's [error] interface that the two packages can
    see.  [ErrOther] stands for the opaque failures of a service: a
    datastore or memcache RPC that fails, a fetch that times out. *)
Inductive error :=
| ErrNoSuchEntity                       (* datastore.ErrNoSuchEntity *)
| ErrorOnlyAdminCanUpdateInventory      (* models *)
| ErrMulti                              (* appengine.MultiError *)
| ErrCacheMiss                          (* memcache.ErrCacheMiss *)
| ErrOther (msg : string).

#[global] Instance error_eq_dec : EqDecision error.
Proof. solve_decision. Defined.

(** A failure injected by the environment, as an [error]. *)
Definition fault (f : option string) : option error := ErrOther <$> f.

End Go.

(** ** Package [models]: the inventory and the datastore it lives in *)

Module Models.
Import Go.

Definition maxItems : Z := 50.

(** A [*datastore.Key] of a [Personality]; only its identity matters. *)
Definition Key := Z.

Record Inventory := mkInventory {
  FileID : string;
  FileType : string;
  Personality : list Key;
  Creator : Z;
  UsageCount : Z;
  LastUsed : Z;
  MD5Sum : list Byte.byte;
  FileSize : Z
}.

(** [new(Inventory)]: every field has its zero value. *)
Definition zeroInventory : Inventory := mkInventory "" "" [] 0 0 0 [] 0.

Definition set_FileID (v : string) (i : Inventory) : Inventory :=
  mkInventory v (FileType i) (Personality i) (Creator i) (UsageCount i)
              (LastUsed i) (MD5Sum i) (FileSize i).
Definition set_FileType (v : string) (i : Inventory) : Inventory :=
  mkInventory (FileID i) v (Personality i) (Creator i) (UsageCount i)
              (LastUsed i) (MD5Sum i) (FileSize i).
Definition set_Personality (v : list Key) (i : Inventory) : Inventory :=
  mkInventory (FileID i) (FileType i) v (Creator i) (UsageCount i)
              (LastUsed i) (MD5Sum i) (FileSize i).
Definition set_Creator (v : Z) (i : Inventory) : Inventory :=
  mkInventory (FileID i) (FileType i) (Personality i) v (UsageCount i)
              (LastUsed i) (MD5Sum i) (FileSize i).
Definition set_UsageCount (v : Z) (i : Inventory) : Inventory :=
  mkInventory (FileID i) (FileType i) (Personality i) (Creator i) v
              (LastUsed i) (MD5Sum i) (FileSize i).
Definition set_LastUsed (v : Z) (i : Inventory) : Inventory :=
  mkInventory (FileID i) (FileType i) (Personality i) (Creator i)
              (UsageCount i) v (MD5Sum i) (FileSize i).
Definition set_MD5Sum (v : list Byte.byte) (i : Inventory) : Inventory :=
  mkInventory (FileID i) (FileType i) (Personality i) (Creator i)
              (UsageCount i) (LastUsed i) v (FileSize i).
Definition set_FileSize (v : Z) (i : Inventory) : Inventory :=
  mkInventory (FileID i) (FileType i) (Personality i) (Creator i)
              (UsageCount i) (LastUsed i) (MD5Sum i) v.

(** *** The entity as the datastore indexes it *)

Inductive Value :=
| VString (s : string)
| VInt (z : Z)
| VKey (k : Key)
| VBytes (b : list Byte.byte)
| VTime (t : Z).

#[global] Instance byte_eq_dec : EqDecision Byte.byte := Byte.byte_eq_dec.
#[global] Instance Value_eq_dec : EqDecision Value.
Proof. solve_decision. Defined.

(** The values stored under a property name; [Personality] is the one
    property with several values. *)
Definition property (name : string) (i : Inventory) : list Value :=
  if String.eqb name "FileID" then [VString (FileID i)]
  else if String.eqb name "FileType" then [VString (FileType i)]
  else if String.eqb name "Personality" then VKey <$> Personality i
  else if String.eqb name "Creator" then [VInt (Creator i)]
  else if String.eqb name "UsageCount" then [VInt (UsageCount i)]
  else if String.eqb name "LastUsed" then [VTime (LastUsed i)]
  else if String.eqb name "MD5Sum" then [VBytes (MD5Sum i)]
  else if String.eqb name "FileSize" then [VInt (FileSize i)]
  else [].

(** The number a property sorts by. *)
Definition sort_key (name : string) (i : Inventory) : Z :=
  match property name i with
  | VInt z :: _ => z
  | VTime t :: _ => t
  | _ => 0
  end.

(** *** What the outside world answers *)

(** [telegram.File], the two fields the package reads. *)
Record File := mkFile { file_FileID : string; file_FileSize : Z }.

Inductive FetchResult :=
| FetchOk (file : File) (b : list Byte.byte)
| FetchErr (e : error).

(** The [Config] argument of [CreateInventory]. *)
Record Config := mkConfig { IsAdmin : Z -> bool }.

Record Env := mkEnv {
  time_Now : Z;                                  (* time.Now() *)
  FileTypeMPEG4GIF : string;                     (* utils.FileTypeMPEG4GIF *)
  IsDevAppServer : bool;                         (* appengine.IsDevAppServer() *)
  md5_Sum : list Byte.byte -> list Byte.byte;    (* md5.Sum *)
  media : string -> FetchResult;                 (* the Telegram file API *)
  gcs_fault : option string;                     (* utils.StoreFileToGCS fails *)
  get_fault : option string;                     (* a Get RPC fails *)
  put_fault : option string;                     (* a Put RPC fails *)
  delete_fault : option string;                  (* a Delete RPC fails *)
  query_fault : option string;                   (* a query RPC fails *)
  begin_fault : option string;                   (* BeginTransaction fails *)
  commit_fault : option string                   (* Commit fails *)
}.

(** *** The state the package acts on *)

Inductive Mutation :=
| MPut (key : string) (v : Inventory)
| MDelete (key : string).

(** An open transaction: the snapshot its reads see, the writes it has
    buffered, whether it may span entity groups, and the groups (here:
    the root keys) it has touched. *)
Record Txn := mkTxn {
  tx_snapshot : gmap string Inventory;
  tx_writes : list Mutation;
  tx_XG : bool;
  tx_groups : list string
}.

Inductive Severity := Info | Warning | Critical.
Inductive LogArg :=
| ArgString (s : string)
| ArgBytes (b : list Byte.byte)
| ArgInt (z : Z).
Record LogEntry := mkLog {
  log_severity : Severity; log_format : string; log_args : list LogArg }.

Record State := mkState {
  store : gmap string Inventory;       (* the entities of kind Inventory *)
  txn : option Txn;                    (* the open transaction, if any *)
  logs : list LogEntry;                (* what was logged, oldest first *)
  fetched : list string;               (* the file ids fetched from Telegram *)
  blobs : list (string * list Byte.byte)   (* what was written to GCS *)
}.

Definition with_store (m : gmap string Inventory) (s : State) : State :=
  mkState m (txn s) (logs s) (fetched s) (blobs s).
Definition with_txn (t : option Txn) (s : State) : State :=
  mkState (store s) t (logs s) (fetched s) (blobs s).

(** The state monad the embedding is written in; Go's [(value, err)]
    results are ordinary pairs. *)
Definition M (A : Type) : Type := State -> A * State.
Definition ret {A} (a : A) : M A := fun s => (a, s).
Definition bind {A B} (c : M A) (k : A -> M B) : M B :=
  fun s => let (a, s') := c s in k a s'.

#[global] Instance M_ret : MRet M := @ret.
#[global] Instance M_bind : MBind M := fun A B k c => bind c k.

Definition log_write (sev : Severity) (fmt : string) (args : list LogArg)
  : M unit :=
  fun s => (tt, mkState (store s) (txn s) (logs s ++ [mkLog sev fmt args])
                        (fetched s) (blobs s)).
Definition log_Infof := log_write Info.
Definition log_Criticalf := log_write Critical.

(** *** The datastore, as [nds] and [datastore] present it

    A [context.Context] either is the request's own or carries the
    transaction that [RunInTransaction] opened.  An operation on the
    request's context acts on the store at once; an operation on the
    transaction's context reads the snapshot and buffers its write
    until commit.  Every root key is an entity group of its own. *)

Inductive Context := Background | Transaction.

Record TransactionOptions := mkOptions { XG : bool }.

Definition errExpired : error :=
  ErrOther "datastore: transaction expired".
Definition errCrossGroup : error :=
  ErrOther "cross-group transaction need to be explicitly specified".
Definition errNested : error :=
  ErrOther "datastore: nested transactions are not supported".

(** May the transaction [t] touch the entity group of [key]? *)
Definition tx_allows (t : Txn) (key : string) : bool :=
  tx_XG t || bool_decide (tx_groups t = []) || bool_decide (key ∈ tx_groups t).

Definition tx_touch (key : string) (t : Txn) : Txn :=
  mkTxn (tx_snapshot t) (tx_writes t) (tx_XG t)
        (if bool_decide (key ∈ tx_groups t) then tx_groups t
         else tx_groups t ++ [key]).

Definition tx_write (m : Mutation) (t : Txn) : Txn :=
  mkTxn (tx_snapshot t) (tx_writes t ++ [m]) (tx_XG t) (tx_groups t).

Definition apply_mutation (m : Mutation) (st : gmap string Inventory)
  : gmap string Inventory :=
  match m with
  | MPut k v => <[k := v]> st
  | MDelete k => delete k st
  end.

(** The buffered writes take effect in the order they were issued. *)
Definition apply_writes (ms : list Mutation) (st : gmap string Inventory)
  : gmap string Inventory :=
  fold_left (fun acc m => apply_mutation m acc) ms st.

Section Datastore.
Variable e : Env.

(** [nds.Get(ctx, key, dst)]: [dst] is returned untouched on error. *)
Definition nds_Get (ctx : Context) (key : string) (dst : Inventory)
  : M (Inventory * option error) :=
  fun s =>
    match fault (get_fault e) with
    | Some err => ((dst, Some err), s)
    | None =>
        match ctx with
        | Background =>
            match store s !! key with
            | Some v => ((v, None), s)
            | None => ((dst, Some ErrNoSuchEntity), s)
            end
        | Transaction =>
            match txn s with
            | None => ((dst, Some errExpired), s)
            | Some t =>
                if tx_allows t key then
                  let s' := with_txn (Some (tx_touch key t)) s in
                  match tx_snapshot t !! key with
                  | Some v => ((v, None), s')
                  | None => ((dst, Some ErrNoSuchEntity), s')
                  end
                else ((dst, Some errCrossGroup), s)
            end
        end
    end.

(** The write of one mutation, shared by [nds.Put] and [nds.Delete]. *)
Definition nds_mutate (flt : option string) (ctx : Context)
           (key : string) (m : Mutation) : M (option error) :=
  fun s =>
    match fault flt with
    | Some err => (Some err, s)
    | None =>
        match ctx with
        | Background => (None, with_store (apply_mutation m (store s)) s)
        | Transaction =>
            match txn s with
            | None => (Some errExpired, s)
            | Some t =>
                if tx_allows t key then
                  (None, with_txn (Some (tx_write m (tx_touch key t))) s)
                else (Some errCrossGroup, s)
            end
        end
    end.

(** [nds.Put(ctx, key, src)] returns the key and the error. *)
Definition nds_Put (ctx : Context) (key : string) (src : Inventory)
  : M (string * option error) :=
  err ← nds_mutate (put_fault e) ctx key (MPut key src);
  ret (key, err).

Definition nds_Delete (ctx : Context) (key : string) : M (option error) :=
  nds_mutate (delete_fault e) ctx key (MDelete key).

(** [nds.GetMulti(ctx, keys, dst)] on the request's context. *)
Definition nds_GetMulti (ctx : Context) (keys : list string)
  : M (list Inventory * option error) :=
  fun s =>
    match fault (get_fault e) with
    | Some err => (((fun _ => zeroInventory) <$> keys, Some err), s)
    | None =>
        let got := (fun k => store s !! k) <$> keys in
        ((default zeroInventory <$> got,
          if forallb (fun o => bool_decide (is_Some o)) got
          then None else Some ErrMulti), s)
    end.

(** [nds.RunInTransaction(ctx, f, opts)].  [f] receives the
    transaction's context; [a] holds the variables the closure
    captures and assigns.  The writes [f] buffered reach the store
    only if [f] returns nil and the commit succeeds; on every other
    path they are dropped.  A commit is retried only when another
    transaction interfered, which a single caller never sees. *)
Definition nds_RunInTransaction {A} (ctx : Context) (a : A)
           (f : Context -> A -> M (A * option error))
           (opts : TransactionOptions) : M (A * option error) :=
  fun s =>
    match ctx with
    | Transaction => ((a, Some errNested), s)
    | Background =>
        match fault (begin_fault e) with
        | Some err => ((a, Some err), s)
        | None =>
            let t := mkTxn (store s) [] (XG opts) [] in
            let '((a', err), s1) := f Transaction a (with_txn (Some t) s) in
            let writes := from_option tx_writes [] (txn s1) in
            let s2 := with_txn (txn s) s1 in
            match err with
            | Some _ => ((a', err), s2)
            | None =>
                match fault (commit_fault e) with
                | Some cerr => ((a', Some cerr), s2)
                | None =>
                    ((a', None),
                     with_store (apply_writes writes (store s2)) s2)
                end
            end
        end
    end.

(** *** Queries *)

Record Query := mkQuery {
  q_filter : list (string * Value);   (* equality filters, all must hold *)
  q_order : option string;            (* the property sorted descending *)
  q_limit : option Z;
  q_offset : Z;
  q_keysOnly : bool;
  q_err : option error
}.

(** [datastore.NewQuery(inventoryEntityKind)]. *)
Definition NewQuery : Query := mkQuery [] None None 0 false None.

(** [q.Filter("Name =", v)]. *)
Definition Filter (q : Query) (name : string) (v : Value) : Query :=
  mkQuery (q_filter q ++ [(name, v)]) (q_order q) (q_limit q)
          (q_offset q) (q_keysOnly q) (q_err q).
Definition KeysOnly (q : Query) : Query :=
  mkQuery (q_filter q) (q_order q) (q_limit q) (q_offset q) true (q_err q).
(** [q.Order("-Name")]. *)
Definition OrderDesc (q : Query) (name : string) : Query :=
  mkQuery (q_filter q) (Some name) (q_limit q) (q_offset q)
          (q_keysOnly q) (q_err q).
Definition with_err (q : Query) (msg : string) : Query :=
  mkQuery (q_filter q) (q_order q) (q_limit q) (q_offset q)
          (q_keysOnly q) (Some (ErrOther msg)).
Definition Limit (q : Query) (limit : Z) : Query :=
  if limit <? 0 then with_err q "datastore: negative query limit"
  else if MaxInt32 <? limit then with_err q "datastore: query limit overflow"
  else mkQuery (q_filter q) (q_order q) (Some limit) (q_offset q)
               (q_keysOnly q) (q_err q).
Definition Offset (q : Query) (offset : Z) : Query :=
  if offset <? 0 then with_err q "datastore: negative query offset"
  else if MaxInt32 <? offset then with_err q "datastore: query offset overflow"
  else mkQuery (q_filter q) (q_order q) (q_limit q) offset
               (q_keysOnly q) (q_err q).

Definition matches (q : Query) (i : Inventory) : bool :=
  forallb (fun '(name, v) => bool_decide (v ∈ property name i)) (q_filter q).

(** The order of the results: descending on the sort property, ties
    and unordered queries by ascending key. *)
Definition before (q : Query) (a b : string * Inventory) : bool :=
  match q_order q with
  | Some name =>
      let ka := sort_key name a.2 in
      let kb := sort_key name b.2 in
      (kb <? ka) || ((ka =? kb) && String.leb a.1 b.1)
  | None => String.leb a.1 b.1
  end.

Fixpoint insert_sorted (q : Query) (x : string * Inventory)
         (l : list (string * Inventory)) : list (string * Inventory) :=
  match l with
  | [] => [x]
  | y :: l' => if before q x y then x :: l else y :: insert_sorted q x l'
  end.

Definition sort_results (q : Query) (l : list (string * Inventory))
  : list (string * Inventory) :=
  fold_right (insert_sorted q) [] l.

(** The keys a query yields on a store. *)
Definition run_query (q : Query) (st : gmap string Inventory) : list string :=
  let hits := List.filter (fun kv => matches q kv.2) (map_to_list st) in
  let page := drop (Z.to_nat (q_offset q)) (sort_results q hits) in
  fst <$> match q_limit q with
          | Some n => take (Z.to_nat n) page
          | None => page
          end.

(** [q.GetAll(ctx, nil)] of a keys-only query. *)
Definition GetAll (ctx : Context) (q : Query) : M (list string * option error) :=
  fun s =>
    match q_err q with
    | Some err => (([], Some err), s)
    | None =>
        match fault (query_fault e) with
        | Some err => (([], Some err), s)
        | None => ((run_query q (store s), None), s)
        end
    end.

(** [q.Count(ctx)]. *)
Definition Count (ctx : Context) (q : Query) : M (Z * option error) :=
  '(keys, err) ← GetAll ctx q;
  ret (Z.of_nat (length keys), err).

(** The page of a query with its records: [run_query] is its keys. *)
Definition run_page (q : Query) (st : gmap string Inventory)
  : list (string * Inventory) :=
  let hits := List.filter (fun kv => matches q kv.2) (map_to_list st) in
  let page := drop (Z.to_nat (q_offset q)) (sort_results q hits) in
  match q_limit q with
  | Some n => take (Z.to_nat n) page
  | None => page
  end.

End Datastore.

(** *** The functions of [inventory.go] *)

Section Inventory.
Variable e : Env.

(** Modelled from the spec: [tgapi.FetchFileInfo] is not among the
    sources.  The media-fetch service "given a content identifier,
    returns {canonical identifier, byte size, raw bytes}, or an error
    if not retrievable"; on an error the Go triple carries no file
    and no bytes. *)
Definition tgapi_FetchFileInfo (ctx : Context) (fileID : string)
  : M (File * list Byte.byte * option error) :=
  fun s =>
    let s' := mkState (store s) (txn s) (logs s) (fetched s ++ [fileID])
                      (blobs s) in
    match media e fileID with
    | FetchOk file b => ((file, b, None), s')
    | FetchErr err => ((mkFile "" 0, [], Some err), s')
    end.

(** Modelled from the spec: [utils.StoreFileToGCS] is not among the
    sources; the durable blob store is [write(key, bytes) -> ok|error]. *)
Definition utils_StoreFileToGCS (ctx : Context) (fileID : string)
           (b : list Byte.byte) : M (option error) :=
  fun s =>
    match fault (gcs_fault e) with
    | Some err => (Some err, s)
    | None => (None, mkState (store s) (txn s) (logs s) (fetched s)
                             (blobs s ++ [(fileID, b)]))
    end.

(** [datastore.NewKey(ctx, inventoryEntityKind, fileID, 0, nil)]: a
    root key of the one kind the store holds, named by the file
    identifier (which Telegram never leaves empty). *)
Definition inventoryKey (ctx : Context) (fileID : string) : string := fileID.

Definition GetInventory (ctx : Context) (fileID : string)
  : M (Inventory * option error) :=
  let i := zeroInventory in
  let key := inventoryKey ctx fileID in
  nds_Get e ctx key i.

(** The bytes [GetInventoryByFile] hashes: those Telegram sent, none
    when the fetch failed. *)
Definition fetched_bytes (fileID : string) : list Byte.byte :=
  match media e fileID with
  | FetchOk _ b => b
  | FetchErr _ => []
  end.

Definition GetInventoryByFile (ctx : Context) (fileID : string)
           (fileSize : Z) : M (option Inventory * option error) :=
  '(count, err) ← Count e ctx (Filter NewQuery "FileSize" (VInt fileSize));
  if bool_decide (err ≠ None) then ret (None, err)
  else if count =? 0 then ret (None, None)
  else
    '(_, b, err) ← tgapi_FetchFileInfo ctx fileID;
    let s := md5_Sum e b in
    '(keys, err) ← GetAll e ctx
                      (KeysOnly (Filter NewQuery "MD5Sum" (VBytes s)));
    if bool_decide (err ≠ None) then ret (None, err)
    else if (length keys =? 0)%nat then ret (None, None)
    else if (1 <? length keys)%nat then
      log_Criticalf "Hash conflict (%x)!" [ArgBytes s];;
      ret (None, None)
    else
      '(i, err) ← nds_Get e ctx (default "" (head keys)) zeroInventory;
      ret (Some i, err).

Definition CreateInventory (ctx : Context) (fileID : string)
           (personality : list Key) (userID : Z) (config : Config)
  : M (option Inventory * option error) :=
  let i := zeroInventory in
  let key := inventoryKey ctx fileID in
  '(i, err) ← nds_Get e ctx key i;
  (* This is an existing Inventory, only admins or original creator
     can update it. *)
  if bool_decide (err = None)
     && negb (IsAdmin config userID || (Creator i =? userID))
  then ret (None, Some ErrorOnlyAdminCanUpdateInventory)
  else if bool_decide (err ≠ None)
          && bool_decide (err ≠ Some ErrNoSuchEntity)
  then ret (None, err)
  else
    let i := set_FileID fileID i in
    let i := set_FileType (FileTypeMPEG4GIF e) i in
    let i := set_Personality personality i in
    let i := set_LastUsed (time_Now e) i in
    let i := if Creator i =? 0 then set_Creator userID i else i in
    '(_, err) ← nds_Put e ctx key i;
    ret (Some i, err).

Definition FindInventories (ctx : Context) (personalities : list Key)
           (lastCursor : string)
  : M (list Inventory * string * option error) :=
  let q := KeysOnly NewQuery in
  let q := fold_left (fun q personality =>
                        Filter q "Personality" (VKey personality))
                     personalities q in
  let q := Limit (OrderDesc q "UsageCount") maxItems in
  let '(offset, err) := Atoi lastCursor in
  let q := if bool_decide (err ≠ None) then Offset q offset else q in
  '(keys, err) ← GetAll e ctx q;
  if bool_decide (err ≠ None) then ret ([], "", err)
  else if (length keys =? 0)%nat then ret ([], "", None)
  else
    '(inventories, err) ← nds_GetMulti e ctx keys;
    if bool_decide (err ≠ None) then ret ([], "", err)
    else
      let newCursor :=
        if Z.of_nat (length keys) =? maxItems
        then Itoa (add offset maxItems) else "" in
      ret (inventories, newCursor, None).

(** The query of [FindInventories] as it stands before the cursor is
    looked at. *)
Definition list_query (personalities : list Key) : Query :=
  Limit (OrderDesc (fold_left (fun q personality =>
                                 Filter q "Personality" (VKey personality))
                              personalities (KeysOnly NewQuery))
                   "UsageCount") maxItems.

Definition IncrementUsageCounter (ctx : Context) (fileID : string)
  : M (option error) :=
  '(_, err) ← nds_RunInTransaction e ctx tt (fun ctx _ =>
    let i := zeroInventory in
    let key := inventoryKey ctx fileID in
    '(i, err) ← nds_Get e ctx key i;
    if bool_decide (err ≠ None) then
      if bool_decide (err = Some ErrNoSuchEntity) then
        (* Silently ignore this. *)
        ret (tt, None)
      else ret (tt, err)
    else
      let i := set_UsageCount (add (UsageCount i) 1) i in
      let i := set_LastUsed (time_Now e) i in
      '(_, err) ← nds_Put e ctx key i;
      ret (tt, err)) (mkOptions false);
  ret err.

(** The record [IncrementUsageCounter] writes back for [i]. *)
Definition used (i : Inventory) : Inventory :=
  set_LastUsed (time_Now e) (set_UsageCount (add (UsageCount i) 1) i).

Definition ReplaceFileID (ctx : Context) (oldFileID newFileID : string)
  : M (Inventory * option error) :=
  let i := zeroInventory in
  nds_RunInTransaction e ctx i (fun ctx i =>
    let oldKey := inventoryKey ctx oldFileID in
    '(i, err) ← nds_Get e ctx oldKey i;
    if bool_decide (err ≠ None) then ret (i, err)
    else
      let i := set_FileID newFileID i in
      err ← nds_Delete e ctx oldKey;
      if bool_decide (err ≠ None) then ret (i, err)
      else
        '(_, err) ← nds_Put e ctx (inventoryKey ctx newFileID) i;
        ret (i, err)) (mkOptions true).

(** The closure names its argument [tc] and goes on using [ctx], the
    context of the caller: so does the embedding. *)
Definition UpdateFileMetadata (ctx : Context) (oldFileID : string)
  : M (option error) :=
  '(file, b, err) ← tgapi_FetchFileInfo ctx oldFileID;
  if bool_decide (err ≠ None) then ret err
  else
    let newFileID := file_FileID file in
    (if bool_decide (newFileID ≠ oldFileID)
     then log_Infof "Detected FileID change %s -> %s"
                    [ArgString oldFileID; ArgString newFileID]
     else ret tt);;
    err ← (if negb (IsDevAppServer e)
           then utils_StoreFileToGCS ctx newFileID b
           else ret None);
    if bool_decide (err ≠ None) then ret err
    else
      let sum := md5_Sum e b in
      log_Infof "File %s: %x (%d bytes)"
                [ArgString newFileID; ArgBytes sum;
                 ArgInt (file_FileSize file)];;
      '(_, err) ← nds_RunInTransaction e ctx tt (fun tc _ =>
        let i := zeroInventory in
        let oldKey := inventoryKey ctx oldFileID in
        '(i, err) ← nds_Get e ctx oldKey i;
        if bool_decide (err ≠ None) then
          if bool_decide (err = Some ErrNoSuchEntity) then
            (* Silently ignore this. *)
            ret (tt, None)
          else ret (tt, err)
        else
          let i := set_FileID newFileID i in
          let i := set_MD5Sum sum i in
          let i := set_FileSize (file_FileSize file) i in
          err ← (if bool_decide (oldFileID ≠ newFileID)
                 then nds_Delete e ctx oldKey else ret None);
          if bool_decide (err ≠ None) then ret (tt, err)
          else
            '(_, err) ← nds_Put e ctx (inventoryKey ctx newFileID) i;
            ret (tt, err)) (mkOptions false);
      ret err.

(** [k.StringID()] of a key of the store. *)
Definition StringID (k : string) : string := k.


Definition AllInventoriesFileIDs (ctx : Context)
  : M (list string * option error) :=
  '(keys, err) ← GetAll e ctx (KeysOnly NewQuery);
  if bool_decide (err ≠ None) then ret ([], err)
  else
    let fileIDs :=
      fold_left (fun fileIDs k => (fileIDs ++ [StringID k])%list) keys [] in
    ret (fileIDs, None).

Definition CountInventories (ctx : Context) (personality : Key)
  : M (Z * option error) :=
  Count e ctx (Filter (KeysOnly NewQuery) "Personality" (VKey personality)).

(** Modelled from the spec: the [Personality] entity is not among the
    sources; a personality record is "id plus canonical display name",
    and [CanonicalName] is the one field [ToString] reads. *)
Record PersonalityRecord := mkPersonality { CanonicalName : string }.

(** [nds.GetMulti] on keys of kind [Personality].  These entities are
    not part of [State]; [directory] is that part of the datastore. *)
Definition Personality_GetMulti (directory : gmap Key PersonalityRecord)
           (keys : list Key) : list PersonalityRecord * option error :=
  match fault (get_fault e) with
  | Some err => ((fun _ => mkPersonality "") <$> keys, Some err)
  | None =>
      let got := (fun k => directory !! k) <$> keys in
      (default (mkPersonality "") <$> got,
       if forallb (fun o => bool_decide (is_Some o)) got
       then None else Some ErrMulti)
  end.

(** [strings.Join]. *)
Fixpoint Join (elems : list string) (sep : string) : string :=
  match elems with
  | [] => ""
  | [x] => x
  | x :: rest => x ++ sep ++ Join rest sep
  end.

(** [Inventory.ToString], the format being ["%s [%s]"]. *)
Definition ToString (directory : gmap Key PersonalityRecord) (i : Inventory)
  : string * option error :=
  let '(ps, err) := Personality_GetMulti directory (Personality i) in
  if bool_decide (err ≠ None) then ("", err)
  else
    let pns := fold_left (fun pns p => (pns ++ [CanonicalName p])%list) ps [] in
    (FileID i ++ " [" ++ Join pns ", " ++ "]", None).

End Inventory.

End Models.

(** ** Package [utils]: the knowledge-graph lookup and its cache *)

Module Utils.
Import Go.

Definition kgMemcacheKey : string := "KG1:".

(** [time.Hour], in nanoseconds as [time.Duration] counts. *)
Definition Hour : Z := 3600 * 1000000000.

(** A value of type [interface{}] as [encoding/json] decodes it. *)
Unset Elimination Schemes.
Inductive JSON :=
| JNull
| JBool (b : bool)
| JNumber (z : Z)
| JString (s : string)
| JArray (l : list JSON)
| JObject (fields : list (string * JSON)).
Set Elimination Schemes.

(** [m[key]] on a [map[string]interface{}]: nil when the key is absent. *)
Fixpoint index (fields : list (string * JSON)) (key : string) : JSON :=
  match fields with
  | [] => JNull
  | (k, v) :: rest => if String.eqb k key then v else index rest key
  end.

(** The search request [sendKGEntityQuery] builds. *)
Record Request := mkRequest {
  req_Query : string;
  req_Languages : list string;
  req_Types : list string;
  req_Limit : Z
}.

Inductive SearchResult :=
| SearchOk (ItemListElement : list JSON)
| SearchErr (msg : string).

(** [memcache.Item]. *)
Record Item := mkItem {
  item_Key : string;
  item_Value : string;
  item_Expiration : Z
}.

Record KGEnv := mkKGEnv {
  kg_Now : Z;                              (* the time of the call *)
  service_fault : option string;           (* kgsearch.NewService fails *)
  search : Request -> SearchResult;        (* what req.Do() answers *)
  memcache_get_fault : option string;      (* the memcache Get RPC fails *)
  memcache_set_fault : option string       (* the memcache Set RPC fails *)
}.

Inductive KGSeverity := KGWarning.
Record KGLog := mkKGLog {
  kglog_severity : KGSeverity; kglog_format : string; kglog_arg : error }.

Record KGState := mkKGState {
  cache : gmap string (Item * Z);   (* the items, each with the time it was set *)
  requests : list Request;          (* the requests sent to the search API *)
  kglogs : list KGLog
}.

(** A Go call either returns or panics. *)
Inductive Result (A : Type) :=
| Done (a : A)
| Panic (msg : string).
Arguments Done {A} a.
Arguments Panic {A} msg.

Definition K (A : Type) : Type := KGState -> Result A * KGState.
Definition kret {A} (a : A) : K A := fun s => (Done a, s).
Definition kbind {A B} (c : K A) (k : A -> K B) : K B :=
  fun s => match c s with
           | (Done a, s') => k a s'
           | (Panic msg, s') => (Panic msg, s')
           end.
Definition panic {A} (msg : string) : K A := fun s => (Panic msg, s).
#[global] Instance K_ret : MRet K := @kret.
#[global] Instance K_bind : MBind K := fun A B k c => kbind c k.

Definition log_Warningf (fmt : string) (err : error) : K unit :=
  fun s => (Done tt, mkKGState (cache s) (requests s)
                               (kglogs s ++ [mkKGLog KGWarning fmt err])).

Section KG.
Variable e : KGEnv.

(** An item is served until its expiration has passed. *)
Definition live (it : Item) (stored : Z) : bool :=
  (item_Expiration it =? 0) || (kg_Now e <? stored + item_Expiration it).

Definition memcache_Get (key : string) : K (option Item * option error) :=
  fun s =>
    match fault (memcache_get_fault e) with
    | Some err => (Done (None, Some err), s)
    | None =>
        match cache s !! key with
        | Some (it, stored) =>
            if live it stored then (Done (Some it, None), s)
            else (Done (None, Some ErrCacheMiss), s)
        | None => (Done (None, Some ErrCacheMiss), s)
        end
    end.

Definition memcache_Set (it : Item) : K (option error) :=
  fun s =>
    match fault (memcache_set_fault e) with
    | Some err => (Done (Some err), s)
    | None =>
        (Done None,
         mkKGState (<[item_Key it := (it, kg_Now e)]> (cache s))
                   (requests s) (kglogs s))
    end.

(** [req.Do()], after [kgsearch.NewService] succeeded. *)
Definition kgsearch_Do (req : Request) : K (list JSON * option error) :=
  fun s =>
    let s' := mkKGState (cache s) (requests s ++ [req]) (kglogs s) in
    match search e req with
    | SearchOk items => (Done (items, None), s')
    | SearchErr msg => (Done ([], Some (ErrOther msg)), s')
    end.

(** This returns the [result] node of the found entity; [None] is
    the nil map. *)
Definition sendKGEntityQuery (query : string)
  : K (option (list (string * JSON)) * option error) :=
  match fault (service_fault e) with
  | Some err => mret (None, Some err)
  | None =>
      let req := mkRequest query ["ja"; "zh"] ["Person"] 1 in
      '(items, err) ← kgsearch_Do req;
      if bool_decide (err ≠ None) then mret (None, err)
      else
        match items with
        | JObject item :: _ =>
            match index item "result" with
            | JObject result => mret (Some result, None)
            | _ => panic "interface conversion"
            end
        | _ :: _ => panic "interface conversion"
        | [] => mret (None, None)
        end
  end.

(** [strings.TrimPrefix]. *)
Definition TrimPrefix (s prefix : string) : string :=
  if String.prefix prefix s
  then String.substring (String.length prefix)
                        (String.length s - String.length prefix) s
  else s.

Definition tryFindKGEntityInternal (query : string)
  : K (string * option error) :=
  '(result, err) ← sendKGEntityQuery query;
  if bool_decide (err ≠ None) then mret ("", err)
  else
    match result with
    | None => mret ("", None)
    | Some result =>
        match index result "@id" with
        | JString id => mret (TrimPrefix id "kg:", None)
        | _ => panic "interface conversion"
        end
    end.

Definition getKGMemcacheKey (query : string) : string :=
  kgMemcacheKey ++ query.

Definition getKGMemcache (query : string) : K (option string) :=
  '(item, err) ← memcache_Get (getKGMemcacheKey query);
  match item, err with
  | Some item, None => mret (Some (item_Value item))
  | _, _ => mret None
  end.

Definition setKGMemcache (query result : string) : K unit :=
  _ ← memcache_Set (mkItem (getKGMemcacheKey query) result (4 * Hour));
  mret tt.

Definition TryFindKGEntity (query : string) : K string :=
  resultFromMemcache ← getKGMemcache query;
  match resultFromMemcache with
  | Some r => mret r
  | None =>
      '(result, err) ← tryFindKGEntityInternal query;
      match err with
      | Some err =>
          (* Don't fail the query, just log and return empty result. *)
          log_Warningf "tryFindKGEntityInternal: %v" err;;
          mret ""
      | None =>
          setKGMemcache query result;;
          mret result
      end
  end.

End KG.

Section Diagnostics.
Variable e : KGEnv.

(** [json.MarshalIndent(result, "", "    ")], as text.  The encoder is
    taken as it comes from the library. *)
Variable MarshalIndent : option (list (string * JSON)) -> string * option error.

Definition GetKGQueryResult (query : string) : K (string * option error) :=
  (* This bypasses memcache *)
  '(result, err) ← sendKGEntityQuery e query;
  if bool_decide (err ≠ None) then mret ("", err)
  else
    let '(encoded, err) := MarshalIndent result in
    mret (encoded, err).

End Diagnostics.

End Utils.

(** ** Concrete worlds, for evaluating the embedding *)

Module Examples.
Import Go Models.

(** An environment in which every service answers. *)
Definition env_ok : Env :=
  mkEnv 1000 "mpeg4_gif" false (fun b => b)
        (fun id => FetchOk (mkFile id 3) []) None None None None None None None.

(** The same environment with a failing [Put]. *)
Definition env_put_fails : Env :=
  mkEnv 1000 "mpeg4_gif" false (fun b => b)
        (fun id => FetchOk (mkFile "new" 3) [])
        None None (Some "put: deadline exceeded") None None None None.

(** The same environment with an unreachable Telegram. *)
Definition env_fetch_fails : Env :=
  mkEnv 1000 "mpeg4_gif" false (fun b => b)
        (fun id => FetchErr (ErrOther "telegram: timeout"))
        None None None None None None None.

Definition nobody_is_admin : Config := mkConfig (fun _ => false).

Definition rec (id : string) (creator usage : Z) : Inventory :=
  mkInventory id "mpeg4_gif" [7] creator usage 5 [] 3.

Definition world (st : gmap string Inventory) : State :=
  mkState st None [] [] [].

Definition three : State :=
  world (<["a" := rec "a" 1 10]>
         (<["b" := rec "b" 2 20]> (<["c" := rec "c" 2 5]> ∅))).

Definition only_old : State := world {["old" := rec "old" 1 10]}.

(** A record whose counter has reached the largest [int64]. *)
Definition saturated : State := world {["a" := rec "a" 1 MaxInt]}.

(** Two records with the same content hash. *)
Definition twins : State :=
  world (<["a" := rec "a" 1 10]> {["b" := rec "b" 2 20]}).

(** Fifty records [f0] ... [f49], all tagged with personality 7. *)
Definition fifty : State :=
  world (list_to_map
           ((fun n => let id := "f" ++ Itoa (Z.of_nat n) in
                      (id, rec id 1 (Z.of_nat n))) <$> seq 0 50)).

End Examples.

Module KGExamples.
Import Go Utils.

(** The answer of the search API for a known person. *)
Definition found : list JSON :=
  [JObject [("@type", JString "EntitySearchResult");
            ("result", JObject [("@id", JString "kg:/m/0abc");
                                ("name", JString "Person")])]].

Definition answers (req : Request) : SearchResult :=
  if String.eqb (req_Query req) "known" then SearchOk found
  else if String.eqb (req_Query req) "nobody" then SearchOk []
  else SearchErr "kgsearch: 503".

(** Everything works, at time 1000. *)
Definition kg_ok : KGEnv := mkKGEnv 1000 None answers None None.

(** One hour later the search API is down. *)
Definition kg_later_down : KGEnv :=
  mkKGEnv (1000 + Hour) None (fun _ => SearchErr "kgsearch: 503") None None.

Definition cold : KGState := mkKGState ∅ [] [].

End KGExamples.

(** * Properties *)

Import Go Models.

Ltac go_unfold :=
  unfold ReplaceFileID, IncrementUsageCounter, CreateInventory, GetInventory,
    UpdateFileMetadata, GetInventoryByFile, FindInventories,
    tgapi_FetchFileInfo, utils_StoreFileToGCS, log_Infof, log_Criticalf,
    log_write, Count, GetAll,
    nds_RunInTransaction, nds_Get, nds_Put, nds_Delete, nds_mutate,
    inventoryKey, mbind, M_bind, bind, mret, M_ret, ret, fault in *.

(** Case analysis on one injected fault. *)
Ltac on_fault f := destruct f; simpl in *; try discriminate; try done.

(** ** Entity groups *)

Lemma tx_allows_fresh snap xg key : tx_allows (mkTxn snap [] xg []) key = true.
Proof.
  unfold tx_allows. simpl. by destruct xg.
Qed.

Lemma tx_allows_touch t key : tx_allows (tx_touch key t) key = true.
Proof.
  unfold tx_allows, tx_touch. simpl.
  destruct (decide (key ∈ tx_groups t)) as [Hin|Hin].
  - rewrite !(bool_decide_eq_true_2 (key ∈ tx_groups t) Hin).
    by rewrite orb_true_r.
  - rewrite (bool_decide_eq_false_2 (key ∈ tx_groups t) Hin).
    rewrite (bool_decide_eq_true_2 (key ∈ (tx_groups t ++ [key])%list)).
    + by rewrite orb_true_r.
    + apply elem_of_app. right. by apply list_elem_of_singleton.
Qed.

Lemma tx_allows_write m t key : tx_allows (tx_write m t) key = tx_allows t key.
Proof. reflexivity. Qed.

Lemma tx_touch_touch t key : tx_touch key (tx_touch key t) = tx_touch key t.
Proof.
  unfold tx_touch at 1. simpl.
  rewrite (bool_decide_eq_true_2 (key ∈ tx_groups (tx_touch key t))); [ done |].
  unfold tx_touch. simpl. case_bool_decide; [ done |].
  apply elem_of_app. right. by apply list_elem_of_singleton.
Qed.

Create Rewrite HintDb tx.
#[global] Hint Rewrite tx_allows_fresh tx_allows_touch tx_allows_write
  tx_touch_touch : tx.

(** ** The store under [ReplaceFileID] *)

Section Rename.
Variable e : Env.



End Rename.



(** ** Arithmetic on [int] *)

Lemma add_exact (a b : Z) :
  MinInt <= a + b <= MaxInt -> add a b = a + b.
Proof.
  unfold add, wrap, MinInt, MaxInt. intros H.
  rewrite Z.mod_small by lia. lia.
Qed.

Lemma add_MaxInt_1 : add MaxInt 1 = MinInt.
Proof. reflexivity. Qed.

(** ** The usage counter *)

Section Usage.
Variable e : Env.

(** C8, as amended: on an identifier without a record
    [IncrementUsageCounter] leaves the store as it is, and returns nil
    whenever the datastore answers.  On a stored record it either
    fails and leaves the store as it is, or replaces the record by
    one whose [UsageCount] is the old one plus 1 in 64-bit arithmetic
    (the old one plus 1 whenever the old one is below the largest
    [int64]), whose [LastUsed] is the current time and whose other
    fields are the old ones; it succeeds whenever the datastore
    answers. *)
Theorem IncrementUsageCounter_spec (s : State) (fileID : string) :
  let '(err, s') := IncrementUsageCounter e Background fileID s in
  match store s !! fileID with
  | None =>
      store s' = store s /\
      (begin_fault e = None -> get_fault e = None ->
       commit_fault e = None -> err = None)
  | Some r =>
      (err = None -> store s' = <[fileID := used e r]> (store s))
      /\ (err <> None -> store s' = store s)
      /\ (begin_fault e = None -> get_fault e = None ->
          put_fault e = None -> commit_fault e = None -> err = None)
      /\ UsageCount (used e r) = add (UsageCount r) 1
      /\ (UsageCount r < MaxInt -> MinInt <= UsageCount r ->
          UsageCount (used e r) = UsageCount r + 1)
      /\ LastUsed (used e r) = time_Now e
      /\ FileID (used e r) = FileID r
      /\ FileType (used e r) = FileType r
      /\ Personality (used e r) = Personality r
      /\ Creator (used e r) = Creator r
      /\ MD5Sum (used e r) = MD5Sum r
      /\ FileSize (used e r) = FileSize r
  end.
Proof.
  go_unfold.
  destruct (store s !! fileID) as [r|] eqn:Hr.
  - assert (Hexact : UsageCount r < MaxInt -> MinInt <= UsageCount r ->
                     UsageCount (used e r) = UsageCount r + 1).
    { intros Hlt Hge. simpl. apply add_exact. lia. }
    destruct (begin_fault e), (get_fault e), (put_fault e), (commit_fault e);
      simpl; autorewrite with tx; simpl; rewrite ?Hr; simpl;
      autorewrite with tx; simpl; repeat split; done.
  - destruct (begin_fault e), (get_fault e), (commit_fault e);
      simpl; autorewrite with tx; simpl; rewrite ?Hr; simpl;
      repeat split; done.
Qed.

End Usage.

(** The theorem at a store of three records: the counter of "a" goes
    from 10 to 11, and an unknown identifier changes nothing. *)
Lemma IncrementUsageCounter_spec_witness :
  (IncrementUsageCounter Examples.env_ok Background "a" Examples.three).1 = None /\
  store (IncrementUsageCounter Examples.env_ok Background "a" Examples.three).2
    !! "a" = Some (mkInventory "a" "mpeg4_gif" [7] 1 11 1000 [] 3) /\
  (IncrementUsageCounter Examples.env_ok Background "zz" Examples.three).1 = None /\
  store (IncrementUsageCounter Examples.env_ok Background "zz" Examples.three).2
    = store Examples.three.
Proof.
  pose proof (IncrementUsageCounter_spec Examples.env_ok Examples.three "a") as Ha.
  pose proof (IncrementUsageCounter_spec Examples.env_ok Examples.three "zz") as Hz.
  destruct (IncrementUsageCounter Examples.env_ok Background "a" Examples.three)
    as [erra sa].
  destruct (IncrementUsageCounter Examples.env_ok Background "zz" Examples.three)
    as [errz sz].
  replace (store Examples.three !! "a") with (Some (Examples.rec "a" 1 10)) in Ha
    by (vm_compute; reflexivity).
  replace (store Examples.three !! "zz") with (@None Inventory) in Hz
    by (vm_compute; reflexivity).
  destruct Ha as (Hstore & _ & Hok & _).
  destruct Hz as (Hsame & Hnil).
  specialize (Hok eq_refl eq_refl eq_refl eq_refl).
  specialize (Hnil eq_refl eq_refl eq_refl).
  simpl. repeat split; try done.
  rewrite (Hstore Hok). by rewrite lookup_insert_eq.
Defined.

(** C8 fails as stated on a counter that has reached the largest
    [int64]: the increment wraps around, the new count is not the old
    one plus 1. *)
Lemma IncrementUsageCounter_overflow_counterexample :
  let '(err, s') :=
    IncrementUsageCounter Examples.env_ok Background "a" Examples.saturated in
  store Examples.saturated !! "a" = Some (Examples.rec "a" 1 9223372036854775807) /\
  err = None /\
  (UsageCount <$> store s' !! "a") = Some (-9223372036854775808) /\
  (UsageCount <$> store s' !! "a") <> Some (9223372036854775807 + 1).
Proof. vm_compute. repeat split; discriminate. Qed.

(** ** Who may update a record *)

Section Create.
Variable e : Env.

(** C4: when a record is stored under the identifier and the caller is
    neither its creator nor an administrator, [CreateInventory] leaves
    the whole state as it is and, if the read answers, returns no
    record and [ErrorOnlyAdminCanUpdateInventory].  When no record is
    stored, or the caller is the creator or an administrator, and the
    datastore answers, it stores and returns the record with [FileID],
    [FileType], [Personality] and [LastUsed] set, with [Creator] set
    to the caller only where it was zero, and with the other fields
    as they were; if the write fails the store is unchanged. *)
Theorem CreateInventory_spec (s : State) (fileID : string)
        (personality : list Key) (userID : Z) (config : Config) :
  let '((i, err), s') :=
    CreateInventory e Background fileID personality userID config s in
  (forall r, store s !! fileID = Some r ->
     Creator r <> userID -> IsAdmin config userID = false ->
     s' = s /\
     (get_fault e = None ->
      i = None /\ err = Some ErrorOnlyAdminCanUpdateInventory))
  /\
  (forall base,
     (store s !! fileID = None /\ base = zeroInventory) \/
     (store s !! fileID = Some base /\
      (IsAdmin config userID = true \/ Creator base = userID)) ->
     let r' := mkInventory fileID (FileTypeMPEG4GIF e) personality
                 (if Creator base =? 0 then userID else Creator base)
                 (UsageCount base) (time_Now e) (MD5Sum base)
                 (FileSize base) in
     (get_fault e = None -> put_fault e = None ->
      i = Some r' /\ err = None /\ store s' = <[fileID := r']> (store s))
     /\ (err <> None -> store s' = store s)).
Proof.
  go_unfold.
  destruct (get_fault e) as [g|] eqn:Hg; simpl.
  { split; [ intros; split; done |].
    intros base _. split; done. }
  destruct (store s !! fileID) as [r0|] eqn:Hl; simpl.
  - destruct (IsAdmin config userID || (Creator r0 =? userID)) eqn:Hc; simpl.
    + destruct (put_fault e); simpl; split.
      all: try (intros r [= <-] Hcreator Hadmin; rewrite Hadmin in Hc;
                simpl in Hc; apply Z.eqb_eq in Hc; done).
      all: intros base [[? _] | [[= <-] _]]; [ done |]; split; try done.
      intros _ _. by destruct (Creator r0 =? 0).
    + split; [ intros; split; done |].
      intros base [[? _] | [[= <-] Hallowed]]; [ done |].
      apply orb_false_elim in Hc as [Hadmin Hcreator].
      apply Z.eqb_neq in Hcreator.
      destruct Hallowed; congruence.
  - destruct (put_fault e); simpl; split; try done.
    all: intros base [[_ ->] | [? _]]; [ | done ]; split; try done.
Qed.

End Create.

(** The theorem at a store of three records: user 5, who is not an
    administrator, may not update "a" (created by user 1) but may create
    "d". *)
Lemma CreateInventory_spec_witness :
  CreateInventory Examples.env_ok Background "a" [9] 5
                  Examples.nobody_is_admin Examples.three
    = ((None, Some ErrorOnlyAdminCanUpdateInventory), Examples.three) /\
  let '((i, err), s') :=
    CreateInventory Examples.env_ok Background "d" [9] 5
                    Examples.nobody_is_admin Examples.three in
  i = Some (mkInventory "d" "mpeg4_gif" [9] 5 0 1000 [] 0) /\ err = None /\
  store s' !! "d" = Some (mkInventory "d" "mpeg4_gif" [9] 5 0 1000 [] 0).
Proof.
  pose proof (CreateInventory_spec Examples.env_ok Examples.three "a" [9] 5
                Examples.nobody_is_admin) as Ha.
  pose proof (CreateInventory_spec Examples.env_ok Examples.three "d" [9] 5
                Examples.nobody_is_admin) as Hd.
  destruct (CreateInventory Examples.env_ok Background "a" [9] 5
              Examples.nobody_is_admin Examples.three) as [[ia erra] sa].
  destruct (CreateInventory Examples.env_ok Background "d" [9] 5
              Examples.nobody_is_admin Examples.three) as [[id errd] sd].
  destruct Ha as [Hdenied _]. destruct Hd as [_ Hupsert].
  destruct (Hdenied (Examples.rec "a" 1 10)) as [-> Hres];
    [ by vm_compute | done | done |].
  destruct (Hres eq_refl) as [-> ->].
  split; [ done |].
  destruct (Hupsert zeroInventory) as [Hok _];
    [ left; split; [ by vm_compute | done ] |].
  destruct (Hok eq_refl eq_refl) as (-> & -> & Hs).
  repeat split. rewrite Hs. by rewrite lookup_insert_eq.
Defined.

(** ** [UpdateFileMetadata] and its transaction *)

Section Metadata.
Variable e : Env.

(** C3, what the code does instead: the closure handed to
    [RunInTransaction] works on the caller's context, so its reads and
    writes are not part of the transaction.  When Telegram reports a
    new identifier, the delete goes through and the put fails, the
    call returns the error of the put and the record is gone from the
    store: the old key is deleted and nothing is stored under the new
    one. *)
Theorem UpdateFileMetadata_loses_record (s : State) (oldID : string)
        (r : Inventory) (file : File) (b : list Byte.byte) (msg : string) :
  store s !! oldID = Some r ->
  media e oldID = FetchOk file b ->
  file_FileID file <> oldID ->
  gcs_fault e = None -> begin_fault e = None -> get_fault e = None ->
  delete_fault e = None ->
  put_fault e = Some msg ->
  let '(err, s') := UpdateFileMetadata e Background oldID s in
  err = Some (ErrOther msg) /\
  store s' = delete oldID (store s) /\
  store s' <> store s /\
  store s' !! oldID = None /\
  (store s !! file_FileID file = None -> store s' !! file_FileID file = None).
Proof.
  intros Hr Hfetch Hne Hgcs Hbegin Hget Hdel Hput.
  go_unfold. rewrite Hfetch. simpl.
  rewrite (bool_decide_eq_true_2 _ Hne). simpl.
  rewrite Hgcs, Hbegin, Hget, Hdel, Hput.
  destruct (IsDevAppServer e); simpl; rewrite Hr; simpl;
    rewrite (bool_decide_eq_true_2 (oldID ≠ file_FileID file))
      by (intros ->; done);
    simpl; (repeat split;
      [ intros Heq; apply (f_equal (fun m => m !! oldID)) in Heq;
        rewrite lookup_delete_eq, Hr in Heq; discriminate
      | apply lookup_delete_eq
      | intros Hnew; rewrite lookup_delete_ne by (intros ->; done); done ]).
Qed.

End Metadata.

(** The theorem at a store holding the one record "old", which Telegram
    now calls "new", with a failing put: the call returns the error and
    the store is empty. *)
Lemma UpdateFileMetadata_loses_record_witness :
  let '(err, s') :=
    UpdateFileMetadata Examples.env_put_fails Background "old" Examples.only_old in
  store Examples.only_old !! "old" = Some (Examples.rec "old" 1 10) /\
  err = Some (ErrOther "put: deadline exceeded") /\
  store s' !! "old" = None /\ store s' !! "new" = None.
Proof.
  pose proof (UpdateFileMetadata_loses_record Examples.env_put_fails
                Examples.only_old "old" (Examples.rec "old" 1 10)
                (mkFile "new" 3) [] "put: deadline exceeded"
                ltac:(by vm_compute) eq_refl ltac:(done)
                eq_refl eq_refl eq_refl eq_refl eq_refl) as H.
  destruct (UpdateFileMetadata Examples.env_put_fails Background "old"
              Examples.only_old) as [err s'].
  destruct H as (-> & _ & _ & Hold & Hnew).
  split; [ by vm_compute |].
  split; [ done |].
  split; [ done |].
  apply Hnew. by vm_compute.
Defined.

(** The sibling [ReplaceFileID], in the same world, loses nothing. *)
Example ReplaceFileID_put_fails :
  let '((_, err), s') :=
    ReplaceFileID Examples.env_put_fails Background "old" "new" Examples.only_old in
  err = Some (ErrOther "put: deadline exceeded") /\
  store s' = store Examples.only_old.
Proof. vm_compute. done. Qed.

(** ** What [strconv.Atoi] and [strconv.Itoa] return *)

Lemma parseUint_loop_nonneg (s : string) (n : Z) :
  0 <= n -> 0 <= (parseUint_loop s n).1.
Proof.
  revert n. induction s as [|c s IH]; intros n Hn; simpl; [ done |].
  destruct (is_digit c) eqn:Hd; simpl; [ | done ].
  destruct (MaxUint64 / 10 + 1 <=? n); [ by vm_compute |].
  destruct (MaxUint64 <? n * 10 + digit_val c); [ by vm_compute |].
  apply IH. unfold is_digit in Hd. unfold digit_val.
  apply andb_true_iff in Hd as [Hlo _]. lia.
Qed.

Lemma ParseUint_nonneg (s : string) : 0 <= (ParseUint s).1.
Proof.
  destruct s; simpl; [ done |].
  apply (parseUint_loop_nonneg (String a s) 0). done.
Qed.

(** The value [Atoi] returns fits an [int]; it is 0 on a syntax error
    and the nearest bound on a range error. *)
Lemma Atoi_value (c : string) :
  MinInt <= (Atoi c).1 <= MaxInt /\
  ((Atoi c).2 = Some ErrSyntax -> (Atoi c).1 = 0) /\
  ((Atoi c).2 = Some ErrRange -> (Atoi c).1 = MaxInt \/ (Atoi c).1 = MinInt).
Proof.
  assert (Hbounds : MinInt = - 2 ^ 63 /\ MaxInt = 2 ^ 63 - 1) by done.
  destruct Hbounds as [Hmin Hmax].
  unfold Atoi, ParseInt.
  destruct c as [|a c]; simpl; [ repeat split; (lia || done) |].
  set (neg := Ascii.eqb a "-").
  set (body := if Ascii.eqb a "+" || neg then c else String a c).
  pose proof (ParseUint_nonneg body) as Hnn.
  destruct (ParseUint body) as [un [[]|]]; simpl in Hnn.
  { simpl. repeat split; (lia || done). }
  all: destruct neg; simpl.
  all: try destruct (2 ^ 63 <? un) eqn:Hc; try destruct (2 ^ 63 <=? un) eqn:Hc';
    simpl.
  all: try apply Z.ltb_ge in Hc; try apply Z.leb_gt in Hc'.
  all: repeat split; try lia; try done; auto.
Qed.

Lemma digits_nonempty (fuel : nat) (n : Z) (acc : string) :
  acc <> "" \/ fuel <> 0%nat -> digits fuel n acc <> "".
Proof.
  revert n acc. induction fuel as [|fuel IH]; intros n acc H; simpl.
  - by destruct H.
  - destruct (n <? 10); [ done |]. apply IH. by left.
Qed.

Lemma Itoa_nonempty (i : Z) : Itoa i <> "".
Proof.
  unfold Itoa. destruct (i <? 0); [ done |].
  apply digits_nonempty. by right.
Qed.

(** ** Listing: the cursor *)

Lemma filters_keep (ps : list Key) (q : Query) :
  let q' := fold_left (fun q p => Filter q "Personality" (VKey p)) ps q in
  q_err q' = q_err q /\ q_limit q' = q_limit q /\ q_offset q' = q_offset q.
Proof.
  revert q. induction ps as [|p ps IH]; intros q; simpl; [ done |].
  destruct (IH (Filter q "Personality" (VKey p))) as (He & Hl & Ho).
  by rewrite He, Hl, Ho.
Qed.

Lemma run_query_length (q : Query) (st : gmap string Inventory) (n : Z) :
  q_limit q = Some n -> (length (run_query q st) <= Z.to_nat n)%nat.
Proof.
  intros Hl. unfold run_query. rewrite Hl, length_fmap, length_take. lia.
Qed.

Lemma nds_GetMulti_length e ctx keys s :
  length (nds_GetMulti e ctx keys s).1.1 = length keys.
Proof.
  unfold nds_GetMulti. destruct (fault (get_fault e)); simpl;
    by rewrite !length_fmap.
Qed.

(** A page of [FindInventories] once its query [q] is fixed; [offset]
    is the number the cursor was read as. *)
Lemma FindInventories_run e (ps : list Key) (c : string) (s : State) :
  FindInventories e Background ps c s =
  let offset := (Atoi c).1 in
  let q := if bool_decide ((Atoi c).2 ≠ None)
           then Offset (list_query ps) offset else list_query ps in
  match q_err q with
  | Some err => (([], "", Some err), s)
  | None =>
      match fault (query_fault e) with
      | Some err => (([], "", Some err), s)
      | None =>
          let keys := run_query q (store s) in
          if (length keys =? 0)%nat then (([], "", None), s)
          else
            match (nds_GetMulti e Background keys s).1 with
            | (_, Some err) => (([], "", Some err), s)
            | (invs, None) =>
                ((invs, if Z.of_nat (length keys) =? maxItems
                        then Itoa (add offset maxItems) else "", None), s)
            end
      end
  end.
Proof.
  unfold FindInventories, list_query.
  destruct (Atoi c) as [offset aerr]. simpl.
  set (q := if bool_decide (aerr ≠ None) then _ else _).
  unfold GetAll, mbind, M_bind, bind, mret, M_ret, ret.
  destruct (q_err q); simpl; [ done |].
  destruct (fault (query_fault e)); simpl; [ done |].
  destruct (length _ =? 0)%nat; [ done |].
  unfold nds_GetMulti. destruct (fault (get_fault e)); simpl; [ done |].
  by destruct (forallb _ _).
Qed.

Lemma list_query_fields (ps : list Key) :
  q_err (list_query ps) = None /\ q_limit (list_query ps) = Some maxItems /\
  q_offset (list_query ps) = 0.
Proof.
  unfold list_query.
  destruct (filters_keep ps (KeysOnly NewQuery)) as (He & Hl & Ho).
  unfold Limit. simpl. by rewrite He, Ho.
Qed.

(** An offset of zero changes nothing. *)
Lemma Offset_0 (ps : list Key) : Offset (list_query ps) 0 = list_query ps.
Proof.
  destruct (list_query_fields ps) as (_ & _ & Ho).
  revert Ho. generalize (list_query ps). intros q Ho.
  destruct q; simpl in *. by subst.
Qed.

(** The cursor decides the query: no offset when it parses, offset zero
    on a syntax error, a refused query on a range error. *)
Lemma cursor_query (ps : list Key) (c : string) :
  let q := if bool_decide ((Atoi c).2 ≠ None)
           then Offset (list_query ps) (Atoi c).1 else list_query ps in
  (q = list_query ps /\ ((Atoi c).2 ≠ None -> (Atoi c).1 = 0))
  \/ (q_err q ≠ None /\ (Atoi c).2 = Some ErrRange).
Proof.
  destruct (Atoi_value c) as (_ & Hsyn & Hrange).
  destruct (Atoi c) as [offset [[]|]]; simpl in *.
  - left. rewrite (Hsyn eq_refl). split; [ apply Offset_0 | done ].
  - right. split; [ | done ].
    destruct (Hrange eq_refl) as [-> | ->]; unfold Offset;
      [ replace (MaxInt <? 0) with false by done;
        replace (MaxInt32 <? MaxInt) with true by done
      | replace (MinInt <? 0) with true by done ]; done.
  - left. done.
Qed.

(** C9, as amended: when [FindInventories] returns without error, the
    page has at most 50 records; a page of exactly 50 comes with a
    non-empty cursor, the decimal form of the incoming offset plus 50
    in 64-bit arithmetic (of the offset plus 50 itself whenever that is
    at most the largest [int]); a shorter page comes with the empty
    cursor.  The incoming offset is the number the cursor parses as,
    and zero for a cursor that does not parse. *)
Theorem FindInventories_next_cursor e (ps : list Key) (c : string) (s : State) :
  let '(((invs, cursor), err), s') := FindInventories e Background ps c s in
  let offset := (Atoi c).1 in
  err = None ->
  ((Atoi c).2 ≠ None -> offset = 0) /\
  (length invs <= 50)%nat /\
  (length invs = 50%nat ->
   cursor = Itoa (add offset 50) /\ cursor <> "" /\
   (offset + 50 <= MaxInt -> cursor = Itoa (offset + 50))) /\
  ((length invs < 50)%nat -> cursor = "").
Proof.
  rewrite FindInventories_run.
  destruct (Atoi_value c) as ([Hlo _] & _ & _).
  destruct (cursor_query ps c) as [[Hq Hzero] | [Hq _]]; simpl in *.
  2: { destruct (q_err _); [ done |]. by contradiction Hq. }
  rewrite Hq.
  destruct (list_query_fields ps) as (-> & Hlimit & _).
  destruct (fault (query_fault e)); [ done |].
  pose proof (run_query_length _ (store s) _ Hlimit) as Hlen.
  change (Z.to_nat maxItems) with 50%nat in Hlen.
  destruct (length _ =? 0)%nat eqn:Hempty.
  { intros _. repeat split; simpl; (done || lia). }
  pose proof (nds_GetMulti_length e Background
                (run_query (list_query ps) (store s)) s) as Hmulti.
  destruct (nds_GetMulti _ _ _ _) as [[invs [err|]] s']; simpl in *; [ done |].
  intros _. rewrite Hmulti. unfold maxItems.
  split; [ done |]. split; [ done |]. split.
  - intros H50. rewrite H50. simpl. split; [ done |].
    split; [ apply Itoa_nonempty |].
    intros Hfit. rewrite add_exact; [ done |]. unfold MinInt in *. lia.
  - intros Hshort.
    destruct (Z.eqb_spec (Z.of_nat (length (run_query (list_query ps) (store s)))) 50);
      [ lia | done ].
Qed.

(** The theorem at a store of fifty records and at one of three: the
    first page of fifty comes with the cursor "50", the page of three
    with the empty cursor. *)
Lemma FindInventories_next_cursor_witness :
  (let '(((invs, cursor), err), _) :=
     FindInventories Examples.env_ok Background [7] "" Examples.fifty in
   err = None /\ length invs = 50%nat /\ cursor = "50") /\
  (let '(((invs, cursor), err), _) :=
     FindInventories Examples.env_ok Background [7] "" Examples.three in
   err = None /\ length invs = 3%nat /\ cursor = "").
Proof.
  pose proof (FindInventories_next_cursor Examples.env_ok [7] ""
                Examples.fifty) as H50.
  pose proof (FindInventories_next_cursor Examples.env_ok [7] ""
                Examples.three) as H3.
  assert (L50 : length (FindInventories Examples.env_ok Background [7] ""
                          Examples.fifty).1.1.1 = 50%nat) by (by vm_compute).
  assert (E50 : (FindInventories Examples.env_ok Background [7] ""
                   Examples.fifty).1.2 = None) by (by vm_compute).
  assert (L3 : length (FindInventories Examples.env_ok Background [7] ""
                         Examples.three).1.1.1 = 3%nat) by (by vm_compute).
  assert (E3 : (FindInventories Examples.env_ok Background [7] ""
                  Examples.three).1.2 = None) by (by vm_compute).
  destruct (FindInventories Examples.env_ok Background [7] "" Examples.fifty)
    as [[[invs cursor] err] s'].
  destruct (FindInventories Examples.env_ok Background [7] "" Examples.three)
    as [[[invs3 cursor3] err3] s3].
  simpl in *. subst err err3.
  destruct (H50 eq_refl) as (_ & _ & Hfull & _).
  destruct (H3 eq_refl) as (_ & _ & _ & Hshort).
  destruct (Hfull L50) as (-> & _ & _).
  rewrite (Hshort ltac:(lia)).
  repeat split; done.
Defined.

(** C9 fails as stated for a cursor close to the largest [int]: the page
    is full and the cursor returned does not encode the offset plus 50. *)
Lemma FindInventories_cursor_overflow_counterexample :
  let '(((invs, cursor), err), _) :=
    FindInventories Examples.env_ok Background [7] "9223372036854775807"
                    Examples.fifty in
  Atoi "9223372036854775807" = (9223372036854775807, None) /\
  err = None /\ length invs = 50%nat /\
  cursor = "-9223372036854775759" /\
  cursor <> Itoa (9223372036854775807 + 50) /\
  (Atoi cursor).1 <> 9223372036854775807 + 50.
Proof. vm_compute. repeat split; discriminate. Qed.

(** C2, what the code does instead: the offset is put on the query when
    the cursor does not parse ([err != nil]) and left out when it does.
    So for every cursor that parses as a number the records and the
    error are those of the first page, the one the empty cursor
    yields. *)
Theorem FindInventories_ignores_cursor e (ps : list Key) (c : string) (n : Z)
        (s : State) :
  Atoi c = (n, None) ->
  (FindInventories e Background ps c s).1.1.1
    = (FindInventories e Background ps "" s).1.1.1 /\
  (FindInventories e Background ps c s).1.2
    = (FindInventories e Background ps "" s).1.2.
Proof.
  intros Hc. rewrite !FindInventories_run. rewrite Hc.
  change (Atoi "") with (0, Some ErrSyntax). simpl.
  rewrite Offset_0.
  destruct (nds_GetMulti _ _ _ _) as [[invs [err|]] s'].
  all: repeat case_match; by simplify_eq/=.
Qed.

(** The theorem at a store of three records and the cursor "1": all
    three records come back, "b" first, where the query with the offset
    applied yields only "a" and "c". *)
Lemma FindInventories_ignores_cursor_witness :
  Atoi "1" = (1, None) /\
  (FileID <$> (FindInventories Examples.env_ok Background [] "1"
                               Examples.three).1.1.1) = ["b"; "a"; "c"] /\
  run_query (Offset (list_query []) 1) (store Examples.three) = ["a"; "c"].
Proof.
  split; [ done |].
  destruct (FindInventories_ignores_cursor Examples.env_ok [] "1" 1
              Examples.three eq_refl) as [-> _].
  split; by vm_compute.
Defined.

(** ** What a query returns *)

Lemma insert_sorted_perm q x l : insert_sorted q x l ≡ₚ x :: l.
Proof.
  induction l as [|y l IH]; simpl; [ done |].
  destruct (before q x y); [ done |].
  rewrite IH. apply Permutation_swap.
Qed.

Lemma sort_results_perm q l : sort_results q l ≡ₚ l.
Proof.
  induction l as [|x l IH]; simpl; [ done |].
  rewrite insert_sorted_perm. by rewrite IH.
Qed.

(** Without limit and offset a query yields the keys of exactly the
    records that pass its filters. *)
Lemma elem_of_run_query (q : Query) (st : gmap string Inventory) (k : string) :
  q_limit q = None -> q_offset q = 0 ->
  k ∈ run_query q st <-> exists r, st !! k = Some r /\ matches q r = true.
Proof.
  intros Hl Ho. unfold run_query. rewrite Hl, Ho. simpl.
  rewrite list_elem_of_fmap. split.
  - intros [[k' r] [-> Hin]]. rewrite sort_results_perm in Hin.
    apply list_elem_of_In, filter_In in Hin as [Hin Hm].
    apply list_elem_of_In, elem_of_map_to_list in Hin. by exists r.
  - intros (r & Hr & Hm). exists (k, r). split; [ done |].
    rewrite sort_results_perm. apply list_elem_of_In, filter_In. split; [ | done ].
    by apply list_elem_of_In, elem_of_map_to_list.
Qed.

(** The candidates by size and the matches by hash of [GetInventoryByFile]. *)
Lemma size_query_spec (st : gmap string Inventory) (fileSize : Z) (k : string) :
  k ∈ run_query (Filter NewQuery "FileSize" (VInt fileSize)) st
  <-> exists r, st !! k = Some r /\ FileSize r = fileSize.
Proof.
  rewrite elem_of_run_query by done. unfold matches. simpl.
  split; intros (r & Hr & Hm); exists r; (split; [ done |]).
  - rewrite andb_true_r in Hm. apply bool_decide_eq_true in Hm.
    apply list_elem_of_singleton in Hm. congruence.
  - rewrite andb_true_r. apply bool_decide_eq_true.
    apply list_elem_of_singleton. congruence.
Qed.

Lemma hash_query_spec (st : gmap string Inventory) (h : list Byte.byte)
      (k : string) :
  k ∈ run_query (KeysOnly (Filter NewQuery "MD5Sum" (VBytes h))) st
  <-> exists r, st !! k = Some r /\ MD5Sum r = h.
Proof.
  rewrite elem_of_run_query by done. unfold matches. simpl.
  split; intros (r & Hr & Hm); exists r; (split; [ done |]).
  - rewrite andb_true_r in Hm. apply bool_decide_eq_true in Hm.
    apply list_elem_of_singleton in Hm. congruence.
  - rewrite andb_true_r. apply bool_decide_eq_true.
    apply list_elem_of_singleton. congruence.
Qed.

(** ** Deduplication by content *)

Section ByContent.
Variable e : Env.

(** C7: [GetInventoryByFile] first counts the records whose [FileSize]
    is the given size.  If the count is zero it returns no record and no
    error and fetches nothing.  Otherwise it fetches the file once,
    hashes the bytes and asks for the records whose [MD5Sum] is that
    hash: with no such record it returns no record and no error; with
    one it returns that record; with several it returns no record and no
    error and logs the conflict as critical.  The store is never
    changed.  (Stated for answering queries; a failing query returns
    its error.) *)
Theorem GetInventoryByFile_spec (s : State) (fileID : string) (fileSize : Z) :
  query_fault e = None ->
  let '((i, err), s') := GetInventoryByFile e Background fileID fileSize s in
  let sized := run_query (Filter NewQuery "FileSize" (VInt fileSize)) (store s) in
  let h := md5_Sum e (fetched_bytes e fileID) in
  let hits := run_query (KeysOnly (Filter NewQuery "MD5Sum" (VBytes h))) (store s) in
  store s' = store s /\
  (forall k, k ∈ sized <-> exists r, store s !! k = Some r /\ FileSize r = fileSize) /\
  (forall k, k ∈ hits <-> exists r, store s !! k = Some r /\ MD5Sum r = h) /\
  match sized with
  | [] => i = None /\ err = None /\ s' = s
  | _ :: _ =>
      fetched s' = (fetched s ++ [fileID])%list /\
      match hits with
      | [] => i = None /\ err = None /\ logs s' = logs s
      | [k] =>
          logs s' = logs s /\
          exists r, store s !! k = Some r /\ MD5Sum r = h /\
                    (get_fault e = None -> i = Some r /\ err = None)
      | _ :: _ :: _ =>
          i = None /\ err = None /\
          logs s' = (logs s ++ [mkLog Critical "Hash conflict (%x)!" [ArgBytes h]])%list
      end
  end.
Proof.
  intros Hq. go_unfold. rewrite Hq. unfold fetched_bytes. simpl.
  pose proof (size_query_spec (store s) fileSize) as Hsize.
  destruct (run_query (Filter NewQuery "FileSize" (VInt fileSize)) (store s))
    as [|k0 sized]; simpl.
  { split_and!; try done. apply hash_query_spec. }
  destruct (media e fileID) as [file b|ferr]; simpl.
  all: match goal with
       | |- context [VBytes (md5_Sum e ?b)] =>
           pose proof (hash_query_spec (store s) (md5_Sum e b)) as Hhits
       end.
  all: destruct (run_query _ (store s)) as [|k [|k' hits]]; simpl.
  all: try (split_and!; done).
  all: destruct (proj1 (Hhits k) ltac:(left)) as (r & Hr & Hh); rewrite Hr.
  all: destruct (get_fault e); simpl; (split_and!; try done);
    exists r; split_and!; done.
Qed.

(** C10: when the size count is not zero and the fetch from Telegram
    fails, the error of the fetch is dropped: the lookup goes on with
    the hash of the empty byte sequence and returns what the records
    with that hash decide; as long as the datastore answers, the error
    returned is nil. *)
Theorem GetInventoryByFile_fetch_error (s : State) (fileID : string)
        (fileSize : Z) (ferr : error) :
  media e fileID = FetchErr ferr ->
  query_fault e = None ->
  run_query (Filter NewQuery "FileSize" (VInt fileSize)) (store s) <> [] ->
  let '((i, err), s') := GetInventoryByFile e Background fileID fileSize s in
  let h := md5_Sum e [] in
  let hits := run_query (KeysOnly (Filter NewQuery "MD5Sum" (VBytes h))) (store s) in
  fetched s' = (fetched s ++ [fileID])%list /\
  (forall k, k ∈ hits <-> exists r, store s !! k = Some r /\ MD5Sum r = h) /\
  (get_fault e = None -> err = None) /\
  match hits with
  | [] => i = None /\ err = None
  | [k] => exists r, store s !! k = Some r /\ MD5Sum r = h /\
                     (get_fault e = None -> i = Some r)
  | _ :: _ :: _ => i = None /\ err = None
  end.
Proof.
  intros Hfetch Hq Hsized. go_unfold. rewrite Hq. simpl.
  destruct (run_query (Filter NewQuery "FileSize" (VInt fileSize)) (store s))
    as [|k0 sized]; [ done |]. simpl.
  rewrite Hfetch. simpl.
  pose proof (hash_query_spec (store s) (md5_Sum e [])) as Hhits.
  destruct (run_query _ (store s)) as [|k [|k' hits]]; simpl.
  all: try (split_and!; done).
  destruct (proj1 (Hhits k) ltac:(left)) as (r & Hr & Hh). rewrite Hr.
  destruct (get_fault e); simpl; (split_and!; try done);
    exists r; split_and!; done.
Qed.

End ByContent.

(** The theorem at three worlds: two records with one hash give no
    match and a critical log entry; a single record with the hash is
    returned; no record of the size gives no match and no fetch. *)
Lemma GetInventoryByFile_spec_witness :
  (let '((i, err), s') :=
     GetInventoryByFile Examples.env_ok Background "x" 3 Examples.twins in
   i = None /\ err = None /\
   logs s' = [mkLog Critical "Hash conflict (%x)!" [ArgBytes []]]) /\
  (let '((i, err), s') :=
     GetInventoryByFile Examples.env_ok Background "x" 3 Examples.only_old in
   i = Some (Examples.rec "old" 1 10) /\ err = None) /\
  (let '((i, err), s') :=
     GetInventoryByFile Examples.env_ok Background "x" 99 Examples.three in
   i = None /\ err = None /\ fetched s' = []).
Proof.
  pose proof (GetInventoryByFile_spec Examples.env_ok Examples.twins "x" 3
                eq_refl) as Htwins.
  pose proof (GetInventoryByFile_spec Examples.env_ok Examples.only_old "x" 3
                eq_refl) as Hone.
  pose proof (GetInventoryByFile_spec Examples.env_ok Examples.three "x" 99
                eq_refl) as Hnone.
  destruct (GetInventoryByFile Examples.env_ok Background "x" 3 Examples.twins)
    as [[i1 err1] s1].
  destruct (GetInventoryByFile Examples.env_ok Background "x" 3 Examples.only_old)
    as [[i2 err2] s2].
  destruct (GetInventoryByFile Examples.env_ok Background "x" 99 Examples.three)
    as [[i3 err3] s3].
  destruct Htwins as (_ & _ & _ & Htwins).
  destruct Hone as (_ & _ & _ & Hone).
  destruct Hnone as (_ & _ & _ & Hnone).
  vm_compute in Htwins, Hone, Hnone.
  destruct Htwins as (_ & -> & -> & Hlog).
  destruct Hone as (_ & _ & r & [= <-] & _ & Hget).
  destruct (Hget eq_refl) as [-> ->].
  destruct Hnone as (-> & -> & ->).
  split_and!; try done.
Defined.

(** The theorem with an unreachable Telegram, at the store whose one
    record has the hash of the empty byte sequence: the call returns
    that record and no error. *)
Lemma GetInventoryByFile_fetch_error_witness :
  media Examples.env_fetch_fails "x" = FetchErr (ErrOther "telegram: timeout") /\
  let '((i, err), s') :=
    GetInventoryByFile Examples.env_fetch_fails Background "x" 3
                       Examples.only_old in
  i = Some (Examples.rec "old" 1 10) /\ err = None /\ fetched s' = ["x"].
Proof.
  split; [ done |].
  pose proof (GetInventoryByFile_fetch_error Examples.env_fetch_fails
                Examples.only_old "x" 3 (ErrOther "telegram: timeout")
                eq_refl eq_refl ltac:(by vm_compute)) as H.
  destruct (GetInventoryByFile Examples.env_fetch_fails Background "x" 3
              Examples.only_old) as [[i err] s'].
  destruct H as (Hf & _ & Herr & H).
  vm_compute in H. destruct H as (r & [= <-] & _ & Hget).
  rewrite (Hget eq_refl), (Herr eq_refl). split_and!; done.
Defined.

(** ** The knowledge-graph lookup *)

Import Utils.

Ltac kg_unfold :=
  unfold TryFindKGEntity, getKGMemcache, setKGMemcache,
    tryFindKGEntityInternal, sendKGEntityQuery, kgsearch_Do, memcache_Get,
    memcache_Set, log_Warningf, panic,
    mbind, K_bind, kbind, mret, K_ret, kret, fault in *.

(** A lookup in the cache never changes the state. *)
Lemma getKGMemcache_pure (e : KGEnv) (query : string) (s : KGState) :
  (getKGMemcache e query s).2 = s.
Proof.
  kg_unfold. destruct (memcache_get_fault e); simpl; [ done |].
  destruct (cache s !! _) as [[it stored]|]; [ | done ].
  by destruct (live e it stored).
Qed.

(** What a lookup in the cache answers depends on the cache alone. *)
Lemma getKGMemcache_cache (e : KGEnv) (query : string) (s1 s2 : KGState) :
  cache s1 = cache s2 ->
  (getKGMemcache e query s1).1 = (getKGMemcache e query s2).1.
Proof.
  intros Hc. kg_unfold. destruct (memcache_get_fault e); simpl; [ done |].
  rewrite Hc. destruct (cache s2 !! _) as [[it stored]|]; [ | done ].
  by destruct (live e it stored).
Qed.

(** A miss followed by a failing lookup: the empty string, a warning. *)
Lemma TryFindKGEntity_miss_error (e : KGEnv) (query : string) (s s1 : KGState)
      (r : string) (err : error) :
  (getKGMemcache e query s).1 = Done None ->
  tryFindKGEntityInternal e query s = (Done (r, Some err), s1) ->
  TryFindKGEntity e query s
  = (Done "", mkKGState (cache s1) (requests s1)
                        (kglogs s1 ++
                         [mkKGLog KGWarning "tryFindKGEntityInternal: %v" err])).
Proof.
  intros Hmiss Hint. unfold TryFindKGEntity, mbind, K_bind, kbind.
  pose proof (getKGMemcache_pure e query s) as Hpure.
  destruct (getKGMemcache e query s) as [r0 s0]. simpl in Hmiss, Hpure.
  subst r0 s0. by rewrite Hint.
Qed.

(** The lookup when the backend fails. *)
Lemma tryFindKGEntityInternal_error (e : KGEnv) (query : string) (s : KGState) (msg : string) :
  service_fault e = Some msg \/
  (service_fault e = None /\
   search e (mkRequest query ["ja"; "zh"] ["Person"] 1) = SearchErr msg) ->
  tryFindKGEntityInternal e query s
  = (Done ("", Some (ErrOther msg)),
     mkKGState (cache s)
               (requests s ++
                match service_fault e with
                | Some _ => []
                | None => [mkRequest query ["ja"; "zh"] ["Person"] 1]
                end)
               (kglogs s)).
Proof.
  intros [Hf | [Hf Hs]]; kg_unfold; rewrite Hf; simpl.
  - rewrite app_nil_r. by destruct s.
  - by rewrite Hs.
Qed.

(** C5: on a cache miss, whenever the search backend fails, because the
    client cannot be built or because the request fails,
    [TryFindKGEntity] returns the empty string, logs a warning and
    leaves the cache as it was, so that every later lookup in the cache
    answers as if the call had not happened; a second call in the same
    circumstances goes to the backend again: it sends the request again,
    logs a second warning and returns the empty string. *)
Theorem TryFindKGEntity_swallows_error (e : KGEnv) (query : string) (s : KGState)
        (msg : string) :
  (getKGMemcache e query s).1 = Done None ->
  service_fault e = Some msg \/
  (service_fault e = None /\
   search e (mkRequest query ["ja"; "zh"] ["Person"] 1) = SearchErr msg) ->
  let req := mkRequest query ["ja"; "zh"] ["Person"] 1 in
  let warning := mkKGLog KGWarning "tryFindKGEntityInternal: %v" (ErrOther msg) in
  let '(r, s') := TryFindKGEntity e query s in
  let '(r2, s2) := TryFindKGEntity e query s' in
  r = Done "" /\ cache s' = cache s /\
  kglogs s' = (kglogs s ++ [warning])%list /\
  (forall e2, (getKGMemcache e2 query s').1 = (getKGMemcache e2 query s).1) /\
  r2 = Done "" /\ cache s2 = cache s /\
  kglogs s2 = (kglogs s ++ [warning; warning])%list /\
  (service_fault e = None -> requests s2 = (requests s ++ [req; req])%list).
Proof.
  intros Hmiss Hfail. cbv zeta.
  rewrite (TryFindKGEntity_miss_error e query s _ _ _ Hmiss
             (tryFindKGEntityInternal_error e query s msg Hfail)).
  cbn [cache requests kglogs].
  match goal with |- context [TryFindKGEntity e query ?s1] => set (s' := s1) end.
  assert (Hsame : forall e2, (getKGMemcache e2 query s').1
                             = (getKGMemcache e2 query s).1).
  { intros e2. by apply getKGMemcache_cache. }
  rewrite (TryFindKGEntity_miss_error e query s' _ _ _
             (eq_trans (Hsame e) Hmiss)
             (tryFindKGEntityInternal_error e query s' msg Hfail)).
  subst s'. cbn [cache requests kglogs].
  split_and!; try done.
  - by rewrite <- app_assoc.
  - intros ->. by rewrite <- !app_assoc.
Qed.


(** The theorem one hour after the cache was last filled, with the
    search API down and nothing cached: the empty string comes back and
    the cache stays empty. *)
Lemma TryFindKGEntity_swallows_error_witness :
  (TryFindKGEntity KGExamples.kg_later_down "known" KGExamples.cold).1 = Done "" /\
  cache (TryFindKGEntity KGExamples.kg_later_down "known" KGExamples.cold).2 = ∅.
Proof.
  pose proof (TryFindKGEntity_swallows_error KGExamples.kg_later_down "known"
                KGExamples.cold "kgsearch: 503" eq_refl
                (or_intror (conj eq_refl eq_refl))) as H.
  cbv zeta in H.
  destruct (TryFindKGEntity KGExamples.kg_later_down "known" KGExamples.cold)
    as [r s'].
  destruct (TryFindKGEntity KGExamples.kg_later_down "known" s') as [r2 s2].
  destruct H as (-> & Hcache & _). simpl. by rewrite Hcache.
Defined.

(** A lookup that succeeds sent exactly one request and touched nothing
    else. *)
Lemma tryFindKGEntityInternal_ok (e : KGEnv) (query : string) (s s1 : KGState)
      (r : string) :
  tryFindKGEntityInternal e query s = (Done (r, None), s1) ->
  s1 = mkKGState (cache s)
                 (requests s ++ [mkRequest query ["ja"; "zh"] ["Person"] 1])
                 (kglogs s).
Proof.
  kg_unfold. destruct (service_fault e); simpl; [ done |].
  destruct (search e _) as [items|]; simpl; [ | done ].
  destruct items as [|[| | | | |item] items]; simpl; try done.
  - by intros [= _ <-].
  - destruct (index item "result") as [| | | | |result]; simpl; try done.
    destruct (index result "@id"); simpl; try done.
    by intros [= _ <-].
Qed.

(** C6: a hit in the cache, whatever the value found, is returned with
    the state untouched, so without any request to the backend.  After
    a miss, a result obtained without error is returned after exactly
    one request, and unless memcache refuses the write it is stored
    under the key of the query with an expiration of four hours.  A
    second call, made before the four hours are over against an
    answering memcache, returns the same result and leaves the state
    untouched: the two calls together sent one request. *)
Theorem TryFindKGEntity_cache (e : KGEnv) (query : string) (s : KGState) :
  let req := mkRequest query ["ja"; "zh"] ["Person"] 1 in
  let key := "KG1:" ++ query in
  (forall v, (getKGMemcache e query s).1 = Done (Some v) ->
             TryFindKGEntity e query s = (Done v, s))
  /\
  (forall r s1,
     (getKGMemcache e query s).1 = Done None ->
     tryFindKGEntityInternal e query s = (Done (r, None), s1) ->
     let '(res, s2) := TryFindKGEntity e query s in
     res = Done r /\
     requests s2 = (requests s ++ [req])%list /\
     kglogs s2 = kglogs s /\
     (memcache_set_fault e = None ->
      cache s2 = <[key := (mkItem key r (4 * Hour), kg_Now e)]> (cache s)) /\
     (forall e2,
        memcache_set_fault e = None -> memcache_get_fault e2 = None ->
        kg_Now e2 < kg_Now e + 4 * Hour ->
        TryFindKGEntity e2 query s2 = (Done r, s2))).
Proof.
  cbv zeta. split.
  - intros v Hhit. unfold TryFindKGEntity, mbind, K_bind, kbind.
    pose proof (getKGMemcache_pure e query s) as Hpure.
    destruct (getKGMemcache e query s) as [r0 s0]. simpl in *. by subst.
  - intros r s1 Hmiss Hint.
    pose proof (tryFindKGEntityInternal_ok e query s s1 r Hint) as ->.
    unfold TryFindKGEntity at 1. unfold mbind, K_bind, kbind.
    pose proof (getKGMemcache_pure e query s) as Hpure.
    destruct (getKGMemcache e query s) as [r0 s0]. simpl in Hmiss, Hpure.
    subst r0 s0. rewrite Hint. clear Hint.
    unfold setKGMemcache, memcache_Set, mbind, K_bind, kbind, mret, K_ret,
      kret, fault, getKGMemcacheKey, kgMemcacheKey.
    destruct (memcache_set_fault e) as [f|]; simpl.
    + split_and!; try done.
    + split_and!; try done. intros e2 _ Hget Hnow.
      kg_unfold. rewrite Hget. simpl.
      unfold getKGMemcacheKey, kgMemcacheKey. rewrite lookup_insert_eq.
      unfold live. simpl.
      replace (kg_Now e2 <? kg_Now e + 4 * Hour) with true
        by (symmetry; by apply Z.ltb_lt).
      done.
Qed.

(** The theorem from a cold cache, for a person the search API knows and
    for one it does not: the identifier, respectively the empty string,
    is cached after one request, and an hour later, with the search API
    down, the second call still returns it without a further request. *)
Lemma TryFindKGEntity_cache_witness :
  (let '(r1, s1) := TryFindKGEntity KGExamples.kg_ok "known" KGExamples.cold in
   let '(r2, s2) := TryFindKGEntity KGExamples.kg_later_down "known" s1 in
   r1 = Done "/m/0abc" /\ r2 = Done "/m/0abc" /\ length (requests s2) = 1%nat) /\
  (let '(r1, s1) := TryFindKGEntity KGExamples.kg_ok "nobody" KGExamples.cold in
   let '(r2, s2) := TryFindKGEntity KGExamples.kg_later_down "nobody" s1 in
   r1 = Done "" /\ r2 = Done "" /\ length (requests s2) = 1%nat).
Proof.
  destruct (TryFindKGEntity_cache KGExamples.kg_ok "known" KGExamples.cold)
    as [_ Hknown].
  destruct (TryFindKGEntity_cache KGExamples.kg_ok "nobody" KGExamples.cold)
    as [_ Hnobody].
  specialize (Hknown "/m/0abc" _ eq_refl eq_refl).
  specialize (Hnobody "" _ eq_refl eq_refl).
  destruct (TryFindKGEntity KGExamples.kg_ok "known" KGExamples.cold) as [r1 s1].
  destruct (TryFindKGEntity KGExamples.kg_ok "nobody" KGExamples.cold) as [r1' s1'].
  destruct Hknown as (-> & Hreq & _ & _ & Hagain).
  destruct Hnobody as (-> & Hreq' & _ & _ & Hagain').
  rewrite (Hagain KGExamples.kg_later_down eq_refl eq_refl ltac:(by vm_compute)).
  rewrite (Hagain' KGExamples.kg_later_down eq_refl eq_refl ltac:(by vm_compute)).
  rewrite Hreq, Hreq'. done.
Defined.

(** ** [strconv] on concrete strings *)

Example Atoi_50 : Atoi "50" = (50, None).
Proof. reflexivity. Qed.

Example Atoi_empty : Atoi "" = (0, Some ErrSyntax).
Proof. reflexivity. Qed.

Example Atoi_signed : Atoi "-12" = (-12, None) /\ Atoi "+12" = (12, None).
Proof. split; reflexivity. Qed.

Example Atoi_junk : Atoi "12a" = (0, Some ErrSyntax).
Proof. reflexivity. Qed.

Example Atoi_too_big :
  Atoi "9223372036854775808" = (MaxInt, Some ErrRange) /\
  Atoi "99999999999999999999999" = (MaxInt, Some ErrRange) /\
  Atoi "-9223372036854775809" = (MinInt, Some ErrRange).
Proof. by vm_compute. Qed.

Example Atoi_bounds :
  Atoi "9223372036854775807" = (MaxInt, None) /\
  Atoi "-9223372036854775808" = (MinInt, None).
Proof. by vm_compute. Qed.

Example Itoa_examples :
  Itoa 0 = "0" /\ Itoa 100 = "100" /\ Itoa (-7) = "-7" /\
  Itoa MinInt = "-9223372036854775808".
Proof. by vm_compute. Qed.

(** A cursor handed out by [FindInventories] reads back as the number it
    was made from. *)
Example cursor_roundtrip : Atoi (Itoa (add 50 maxItems)) = (100, None).
Proof. by vm_compute. Qed.

(** * Further properties of the inventory *)

(** ** Pages *)

Lemma run_query_page (q : Query) (st : gmap string Inventory) :
  run_query q st = (run_page q st).*1.
Proof. reflexivity. Qed.

(** Every entry of a page is a record of the store that passes the
    filters. *)
Lemma run_page_stored (q : Query) (st : gmap string Inventory) :
  Forall (fun kv => st !! kv.1 = Some kv.2 /\ matches q kv.2 = true)
         (run_page q st).
Proof.
  assert (Hhits : Forall (fun kv => st !! kv.1 = Some kv.2 /\ matches q kv.2 = true)
                         (sort_results q
                            (List.filter (fun kv => matches q kv.2)
                                         (map_to_list st)))).
  { rewrite sort_results_perm. apply Forall_forall. intros [k r] Hin.
    apply list_elem_of_In, filter_In in Hin as [Hin Hm].
    apply list_elem_of_In, elem_of_map_to_list in Hin. done. }
  unfold run_page. destruct (q_limit q).
  - by apply Forall_take, Forall_drop.
  - by apply Forall_drop.
Qed.

(** No key comes twice in a page. *)
Lemma run_query_NoDup (q : Query) (st : gmap string Inventory) :
  NoDup (run_query q st).
Proof.
  assert (Hall : NoDup (sort_results q
                          (List.filter (fun kv => matches q kv.2)
                                       (map_to_list st))).*1).
  { rewrite sort_results_perm.
    eapply sublist_NoDup; [ apply (NoDup_fst_map_to_list st) |].
    apply fmap_sublist.
    induction (map_to_list st) as [|kv l IH]; simpl; [ done |].
    destruct (matches q kv.2); by constructor. }
  unfold run_query.
  set (l := sort_results _ _) in *.
  assert (Hdrop : NoDup (drop (Z.to_nat (q_offset q)) l).*1).
  { eapply sublist_NoDup; [ exact Hall |]. apply fmap_sublist, sublist_drop. }
  destruct (q_limit q); [ | done ].
  eapply sublist_NoDup; [ exact Hdrop |]. apply fmap_sublist, sublist_take.
Qed.

Lemma lookup_stored (st : gmap string Inventory) (l : list (string * Inventory)) :
  Forall (fun kv => st !! kv.1 = Some kv.2) l ->
  default zeroInventory <$> ((fun k => st !! k) <$> l.*1) = l.*2 /\
  forallb (fun o => bool_decide (is_Some o)) ((fun k => st !! k) <$> l.*1) = true.
Proof.
  induction 1 as [|[k r] l Hk Hl [IH1 IH2]]; [ done |].
  rewrite !fmap_cons. simpl in Hk. cbn [fst snd forallb]. rewrite Hk.
  split; [ by f_equal |].
  rewrite bool_decide_eq_true_2 by done. exact IH2.
Qed.

(** Reading the keys of a page returns its records, in order. *)
Lemma nds_GetMulti_page e (q : Query) (s : State) :
  get_fault e = None ->
  nds_GetMulti e Background (run_query q (store s)) s
  = (((run_page q (store s)).*2, None), s).
Proof.
  intros Hg. unfold nds_GetMulti, fault. rewrite Hg. simpl.
  rewrite run_query_page.
  destruct (lookup_stored (store s) (run_page q (store s))) as [-> ->];
    [ | done ].
  eapply Forall_impl; [ apply run_page_stored |]. by intros kv [? _].
Qed.

(** *** Order *)

Section Order.
Variable q : Query.
Variable name : string.
Hypothesis Horder : q_order q = Some name.

(** [a] does not rank below [b]. *)
Let ranks (a b : string * Inventory) : Prop :=
  sort_key name b.2 <= sort_key name a.2.

Lemma before_ranks a b : before q a b = true -> ranks a b.
Proof.
  unfold before, ranks. rewrite Horder. intros H.
  apply orb_true_iff in H as [H | H]; [ apply Z.ltb_lt in H; lia |].
  apply andb_true_iff in H as [H _]. apply Z.eqb_eq in H. lia.
Qed.

Lemma not_before_ranks a b : before q a b = false -> ranks b a.
Proof.
  unfold before, ranks. rewrite Horder. intros H.
  apply orb_false_iff in H as [H _]. apply Z.ltb_ge in H. lia.
Qed.

Lemma insert_sorted_sorted x l :
  StronglySorted ranks l -> StronglySorted ranks (insert_sorted q x l).
Proof.
  induction l as [|y l IH]; intros Hl; simpl.
  - by repeat constructor.
  - apply StronglySorted_cons in Hl as [Hy Hl].
    destruct (before q x y) eqn:Hb.
    + apply StronglySorted_cons. split; [ | by apply StronglySorted_cons ].
      pose proof (before_ranks _ _ Hb) as Hxy.
      constructor; [ done |].
      eapply Forall_impl; [ exact Hy |]. unfold ranks in *. intros z Hz. lia.
    + apply StronglySorted_cons. split; [ | by apply IH ].
      rewrite insert_sorted_perm. constructor; [ | done ].
      by apply not_before_ranks.
Qed.

Lemma sort_results_sorted l : StronglySorted ranks (sort_results q l).
Proof.
  induction l as [|x l IH]; simpl; [ constructor |].
  by apply insert_sorted_sorted.
Qed.

(** A page is in non-increasing order of the sort property. *)
Lemma run_page_sorted (st : gmap string Inventory) :
  StronglySorted (fun a b : Inventory => sort_key name b <= sort_key name a)
                 (run_page q st).*2.
Proof.
  apply (StronglySorted_fmap _ ranks); [ done |].
  unfold run_page.
  set (l := sort_results q _).
  pose proof (sort_results_sorted
                (List.filter (fun kv => matches q kv.2) (map_to_list st)))
    as Hl. fold l in Hl.
  assert (Hdrop : StronglySorted ranks (drop (Z.to_nat (q_offset q)) l)).
  { rewrite <- (take_drop (Z.to_nat (q_offset q)) l) in Hl.
    by apply StronglySorted_app_1_r in Hl. }
  destruct (q_limit q) as [n|]; [ | done ].
  rewrite <- (take_drop (Z.to_nat n) (drop _ l)) in Hdrop.
  by apply StronglySorted_app_1_l in Hdrop.
Qed.

End Order.

(** ** The identifiers of the whole store *)

Lemma collect_StringID (keys acc : list string) :
  fold_left (fun fileIDs k => (fileIDs ++ [StringID k])%list) keys acc
  = (acc ++ keys)%list.
Proof.
  revert acc. induction keys as [|k keys IH]; intros acc; simpl.
  - by rewrite app_nil_r.
  - rewrite IH. by rewrite <- app_assoc.
Qed.

Lemma filter_all {A} (l : list A) : List.filter (fun _ => true) l = l.
Proof. induction l as [|x l IH]; simpl; [ done | by rewrite IH ]. Qed.

Lemma run_query_all (st : gmap string Inventory) :
  run_query (KeysOnly NewQuery) st ≡ₚ (map_to_list st).*1.
Proof.
  unfold run_query, matches. simpl. rewrite filter_all.
  by rewrite sort_results_perm.
Qed.

(** X1: [AllInventoriesFileIDs] lists every key of the store exactly once,
    and nothing else; a failing query gives its error and no
    identifier.  The state is left as it is. *)
Theorem AllInventoriesFileIDs_keys e (s : State) :
  let '((fileIDs, err), s') := AllInventoriesFileIDs e Background s in
  s' = s /\
  match query_fault e with
  | Some msg => fileIDs = [] /\ err = Some (ErrOther msg)
  | None =>
      err = None /\ NoDup fileIDs /\
      (forall k, k ∈ fileIDs <-> is_Some (store s !! k)) /\
      length fileIDs = size (store s)
  end.
Proof.
  unfold AllInventoriesFileIDs. go_unfold.
  destruct (query_fault e); simpl; [ done |].
  rewrite collect_StringID. simpl.
  split_and!; try done.
  - apply run_query_NoDup.
  - intros k. rewrite elem_of_run_query by done.
    unfold matches. simpl. split.
    + by intros (r & -> & _).
    + intros [r Hr]. by exists r.
  - rewrite run_query_all, length_fmap. apply length_map_to_list.
Qed.

(** ** Counting by personality *)

Lemma matches_personality (p : Key) (r : Inventory) :
  bool_decide (VKey p ∈ property "Personality" r) = true <-> p ∈ Personality r.
Proof.
  rewrite bool_decide_eq_true.
  change (property "Personality" r) with (VKey <$> Personality r).
  rewrite list_elem_of_fmap. split.
  - by intros (p' & [= ->] & Hin).
  - intros Hin. by exists p.
Qed.

(** X2: [CountInventories] returns the number of stored records that carry
    the personality: the length of a duplicate-free list of exactly
    their keys.  A failing query gives its error.  The state is left as
    it is. *)
Theorem CountInventories_counts e (s : State) (personality : Key) :
  let '((n, err), s') := CountInventories e Background personality s in
  s' = s /\
  match query_fault e with
  | Some msg => n = 0 /\ err = Some (ErrOther msg)
  | None =>
      err = None /\
      exists keys, n = Z.of_nat (length keys) /\ NoDup keys /\
        forall k, k ∈ keys <->
                  exists r, store s !! k = Some r /\ personality ∈ Personality r
  end.
Proof.
  unfold CountInventories. go_unfold.
  destruct (query_fault e); simpl; [ done |].
  split_and!; try done.
  eexists. split; [ reflexivity |]. split; [ apply run_query_NoDup |].
  intros k. rewrite elem_of_run_query by done. unfold matches. simpl.
  split; intros (r & Hr & Hm); exists r; (split; [ done |]).
  - rewrite andb_true_r in Hm. by apply matches_personality.
  - rewrite andb_true_r. by apply matches_personality.
Qed.

(** ** What a page holds *)

(** With no offset, a record that passes the filters is on the page or
    ranks no higher than any record on it. *)
Lemma run_page_top (q : Query) (name : string) (st : gmap string Inventory)
      (k : string) (r : Inventory) :
  q_order q = Some name -> q_offset q = 0 ->
  st !! k = Some r -> matches q r = true ->
  (k, r) ∈ run_page q st \/
  Forall (fun kv => sort_key name r <= sort_key name kv.2) (run_page q st).
Proof.
  intros Horder Hoff Hk Hm. unfold run_page. rewrite Hoff. simpl.
  set (l := sort_results q _).
  assert (Hin : (k, r) ∈ l).
  { unfold l. rewrite sort_results_perm. apply list_elem_of_In, filter_In.
    split; [ | done ]. by apply list_elem_of_In, elem_of_map_to_list. }
  destruct (q_limit q) as [n|]; [ | by left ].
  pose proof (sort_results_sorted q name Horder
                (List.filter (fun kv => matches q kv.2) (map_to_list st))) as Hs.
  fold l in Hs. rewrite <- (take_drop (Z.to_nat n) l) in Hs, Hin.
  apply elem_of_app in Hin as [Hin | Hin]; [ by left | right ].
  apply Forall_forall. intros x Hx.
  apply (StronglySorted_app_1_elem_of _ _ _ _ _ Hs Hx Hin).
Qed.




(** ** Listing by personality: what is on the page *)

Lemma filters_filter (ps : list Key) (q : Query) :
  let q' := fold_left (fun q p => Filter q "Personality" (VKey p)) ps q in
  q_filter q' = (q_filter q ++ ((fun p => ("Personality", VKey p)) <$> ps))%list /\
  q_order q' = q_order q.
Proof.
  revert q. induction ps as [|p ps IH]; intros q; simpl.
  - by rewrite app_nil_r.
  - destruct (IH (Filter q "Personality" (VKey p))) as [Hf Ho].
    rewrite Hf, Ho. simpl. by rewrite <- app_assoc.
Qed.

Lemma list_query_order (ps : list Key) :
  q_order (list_query ps) = Some "UsageCount".
Proof. reflexivity. Qed.

Lemma list_query_matches (ps : list Key) (r : Inventory) :
  matches (list_query ps) r = true <-> forall p, p ∈ ps -> p ∈ Personality r.
Proof.
  unfold matches.
  replace (q_filter (list_query ps))
    with ((fun p => ("Personality", VKey p)) <$> ps).
  2:{ destruct (filters_filter ps (KeysOnly NewQuery)) as [Hf _].
      symmetry. exact Hf. }
  induction ps as [|p ps IH]; simpl.
  - split; [ intros _ p Hp; by apply elem_of_nil in Hp | done ].
  - rewrite andb_true_iff, IH.
    pose proof (matches_personality p r) as Hp. simpl in Hp. rewrite Hp.
    split.
    + intros [H1 H2] p' Hin. apply elem_of_cons in Hin as [-> | Hin]; auto.
    + intros H. split; [ apply H; left | intros p' Hin; apply H; by right ].
Qed.

(** X4: [FindInventories] never changes the state.  With an error it
    returns no record and no cursor.  Without, every record returned is
    stored and carries each requested personality, the records come in
    non-increasing order of use, and a stored record with all the
    personalities that is left out was used no more often than any
    record returned. *)
Theorem FindInventories_page e (ps : list Key) (c : string) (s : State) :
  let '(((invs, cursor), err), s') := FindInventories e Background ps c s in
  s' = s /\
  match err with
  | Some _ => invs = [] /\ cursor = ""
  | None =>
      Forall (fun r => (exists k, store s !! k = Some r) /\
                       forall p, p ∈ ps -> p ∈ Personality r) invs /\
      StronglySorted (fun a b => UsageCount b <= UsageCount a) invs /\
      forall k r, store s !! k = Some r ->
        (forall p, p ∈ ps -> p ∈ Personality r) ->
        r ∈ invs \/ Forall (fun r' => UsageCount r <= UsageCount r') invs
  end.
Proof.
  rewrite FindInventories_run. cbv zeta.
  destruct (cursor_query ps c) as [[-> _] | [Herr _]].
  2:{ destruct (q_err _); [ done | by destruct Herr ]. }
  destruct (list_query_fields ps) as (-> & _ & Hoff).
  destruct (fault (query_fault e)); [ done |].
  destruct (length _ =? 0)%nat eqn:Hlen.
  { split; [ done |]. split_and!; [ done | constructor |].
    intros k r Hk Hm. right. constructor. }
  unfold nds_GetMulti at 1.
  destruct (get_fault e) as [msg|] eqn:Hg; simpl; [ done |].
  pose proof (nds_GetMulti_page e (list_query ps) s Hg) as Hpage.
  unfold nds_GetMulti, fault in Hpage. rewrite Hg in Hpage. simpl in Hpage.
  injection Hpage as -> ->. cbv iota beta.
  split; [ done |]. split_and!.
  - apply Forall_fmap. eapply Forall_impl; [ apply run_page_stored |].
    intros [k r] [Hk Hm]. simpl in *. split; [ by exists k |].
    by apply list_query_matches.
  - apply (run_page_sorted (list_query ps) "UsageCount" (list_query_order ps)).
  - intros k r Hk Hm. apply list_query_matches in Hm.
    destruct (run_page_top (list_query ps) "UsageCount" (store s) k r
                (list_query_order ps) Hoff Hk Hm) as [Hin | Hall].
    + left. apply list_elem_of_fmap. by exists (k, r).
    + right. by apply Forall_fmap.
Qed.

(** ** Cursors that do not fit, and cursors handed out *)

(** X5: A cursor whose number does not fit an [int] makes the query
    invalid: [FindInventories] returns the error of the query, no
    record and no cursor, and does not reach the datastore, so that a
    failure injected there never shows. *)
Theorem FindInventories_cursor_out_of_range e (ps : list Key) (c : string)
        (s : State) :
  (Atoi c).2 = Some ErrRange ->
  exists msg,
    FindInventories e Background ps c s = (([], "", Some (ErrOther msg)), s) /\
    (msg = "datastore: query offset overflow" \/
     msg = "datastore: negative query offset").
Proof.
  intros Hrange. rewrite FindInventories_run. cbv zeta.
  destruct (Atoi_value c) as (_ & _ & Hval). specialize (Hval Hrange).
  rewrite Hrange. rewrite bool_decide_eq_true_2 by done.
  destruct (list_query_fields ps) as (Herr & _ & _).
  destruct Hval as [-> | ->]; unfold Offset.
  - replace (MaxInt <? 0) with false by done.
    replace (MaxInt32 <? MaxInt) with true by done.
    eexists. split; [ reflexivity | by left ].
  - replace (MinInt <? 0) with true by done.
    eexists. split; [ reflexivity | by right ].
Qed.

(** The theorem at a cursor of twenty nines. *)
Lemma FindInventories_cursor_out_of_range_witness :
  (Atoi "99999999999999999999").2 = Some ErrRange /\
  exists msg,
    FindInventories Examples.env_ok Background [7] "99999999999999999999"
                    Examples.three = (([], "", Some (ErrOther msg)), Examples.three).
Proof.
  split; [ by vm_compute |].
  destruct (FindInventories_cursor_out_of_range Examples.env_ok [7]
              "99999999999999999999" Examples.three ltac:(by vm_compute))
    as (msg & H & _).
  by exists msg.
Defined.

Lemma digit_char (d : Z) :
  0 <= d < 10 ->
  let c := ascii_of_N (Z.to_N (48 + d)) in
  is_digit c = true /\ digit_val c = d.
Proof.
  intros Hd. cbv zeta. unfold is_digit, digit_val.
  rewrite N_ascii_embedding by lia.
  rewrite Z2N.id by lia. split; [ | lia ].
  apply andb_true_iff. split; apply Z.leb_le; lia.
Qed.

(** Reading back what [digits] wrote: the digits of [n], put in front
    of [acc], bring the loop from 0 to [n]. *)
Lemma parseUint_loop_digits (fuel : nat) (n : Z) (acc : string) :
  0 <= n < 10 ^ Z.of_nat fuel -> n <= MaxUint64 ->
  parseUint_loop (digits fuel n acc) 0 = parseUint_loop acc n.
Proof.
  revert n acc. induction fuel as [|fuel IH]; intros n acc Hn Hmax.
  { simpl in Hn. assert (n = 0) as -> by lia. done. }
  assert (Hmod : 0 <= n mod 10 < 10) by (apply Z.mod_pos_bound; lia).
  destruct (digit_char (n mod 10) Hmod) as [Hdig Hval].
  assert (HM : MaxUint64 = 18446744073709551615) by done.
  cbn [digits]. destruct (n <? 10) eqn:Hlt.
  - apply Z.ltb_lt in Hlt. cbn [parseUint_loop]. rewrite Hdig. cbn [negb].
    replace (MaxUint64 / 10 + 1 <=? 0) with false by done.
    rewrite Hval. rewrite Z.mod_small by lia.
    change (0 * 10 + n) with n.
    replace (MaxUint64 <? n) with false by (symmetry; apply Z.ltb_ge; lia).
    done.
  - apply Z.ltb_ge in Hlt.
    rewrite IH.
    2:{ split; [ apply Z.div_pos; lia |].
        apply Z.div_lt_upper_bound; [ lia |].
        rewrite Nat2Z.inj_succ, Z.pow_succ_r in Hn by lia. lia. }
    2:{ assert (n / 10 <= n) by (apply Z.div_le_upper_bound; lia). lia. }
    cbn [parseUint_loop]. rewrite Hdig. cbn [negb].
    assert (Hdiv : n / 10 <= MaxUint64 / 10) by (apply Z.div_le_mono; lia).
    replace (MaxUint64 / 10 + 1 <=? n / 10) with false
      by (symmetry; apply Z.leb_gt; lia).
    rewrite Hval.
    replace (n / 10 * 10 + n mod 10) with n
      by (rewrite (Z.div_mod n 10) at 1; lia).
    replace (MaxUint64 <? n) with false by (symmetry; apply Z.ltb_ge; lia).
    done.
Qed.

(** [digits] starts with a digit. *)
Lemma digits_head (fuel : nat) (n : Z) (acc : string) :
  0 <= n ->
  exists c s, digits (S fuel) n acc = String c s /\ is_digit c = true.
Proof.
  revert n acc. induction fuel as [|fuel IH]; intros n acc Hn.
  all: assert (Hmod : 0 <= n mod 10 < 10) by (apply Z.mod_pos_bound; lia).
  all: destruct (digit_char (n mod 10) Hmod) as [Hdig _].
  - cbn [digits]. destruct (n <? 10); eauto.
  - change (digits (S (S fuel)) n acc)
      with (let acc' := String (ascii_of_N (Z.to_N (48 + n mod 10))) acc in
            if n <? 10 then acc' else digits (S fuel) (n / 10) acc').
    cbv zeta. destruct (n <? 10); [ eauto |].
    apply IH. apply Z.div_pos; lia.
Qed.

Lemma digit_not_sign (c : ascii) :
  is_digit c = true -> Ascii.eqb c "+" = false /\ Ascii.eqb c "-" = false.
Proof.
  intros H. split.
  - destruct (Ascii.eqb_spec c "+") as [-> |]; [ discriminate | done ].
  - destruct (Ascii.eqb_spec c "-") as [-> |]; [ discriminate | done ].
Qed.

Lemma ParseUint_digits (n : Z) :
  0 <= n <= 2 ^ 63 -> ParseUint (digits 20 n "") = (n, None).
Proof.
  intros Hn. destruct (digits_head 19 n "") as (c & s & Heq & _); [ lia |].
  unfold ParseUint. rewrite Heq, <- Heq.
  rewrite parseUint_loop_digits; [ done | | ].
  - change (10 ^ Z.of_nat 20) with 100000000000000000000. lia.
  - change MaxUint64 with 18446744073709551615. lia.
Qed.

(** [Atoi] reads back every [int] that [Itoa] wrote. *)
Lemma Atoi_Itoa (n : Z) : MinInt <= n <= MaxInt -> Atoi (Itoa n) = (n, None).
Proof.
  assert (Hbounds : MinInt = - 2 ^ 63 /\ MaxInt = 2 ^ 63 - 1) by done.
  destruct Hbounds as [Hmin Hmax]. intros Hn.
  unfold Atoi, Itoa. destruct (n <? 0) eqn:Hneg.
  - apply Z.ltb_lt in Hneg. unfold ParseInt.
    change (Ascii.eqb "-" "-") with true.
    change (Ascii.eqb "-" "+") with false. cbn [orb].
    rewrite ParseUint_digits by lia. cbn [negb andb].
    replace (2 ^ 63 <? - n) with false by (symmetry; apply Z.ltb_ge; lia).
    by rewrite Z.opp_involutive.
  - apply Z.ltb_ge in Hneg.
    destruct (digits_head 19 n "" Hneg) as (c & s & Heq & Hdig).
    destruct (digit_not_sign c Hdig) as [Hplus Hminus].
    unfold ParseInt. rewrite Heq, Hplus, Hminus. cbn [orb]. rewrite <- Heq.
    rewrite ParseUint_digits by lia. cbn [negb andb].
    replace (2 ^ 63 <=? n) with false by (symmetry; apply Z.leb_gt; lia).
    done.
Qed.

Lemma wrap_in_range (z : Z) : MinInt <= wrap z <= MaxInt.
Proof.
  unfold wrap, MinInt, MaxInt.
  pose proof (Z.mod_pos_bound (z + 2 ^ 63) (2 ^ 64) ltac:(done)). lia.
Qed.

(** X6: Every cursor [FindInventories] hands out is one that [Atoi] reads
    without error, as the very number it was written from: the
    incoming offset plus 50 in 64-bit arithmetic. *)
Theorem FindInventories_cursor_parses e (ps : list Key) (c : string)
        (s : State) :
  let '(((invs, cursor), err), s') := FindInventories e Background ps c s in
  cursor <> "" -> Atoi cursor = (add (Atoi c).1 50, None).
Proof.
  rewrite FindInventories_run. cbv zeta.
  destruct (q_err _); [ done |].
  destruct (fault (query_fault e)); [ done |].
  destruct (length _ =? 0)%nat; [ done |].
  destruct (nds_GetMulti _ _ _ _).1 as [invs [err|]]; [ done |].
  destruct (Z.of_nat _ =? maxItems); [ | done ].
  intros _. apply Atoi_Itoa, wrap_in_range.
Qed.

(** The theorem at fifty records and the empty cursor: the cursor that
    comes back reads as 50. *)
Lemma FindInventories_cursor_parses_witness :
  Atoi (FindInventories Examples.env_ok Background [7] ""
                        Examples.fifty).1.1.2 = (50, None).
Proof.
  pose proof (FindInventories_cursor_parses Examples.env_ok [7] ""
                Examples.fifty) as H.
  assert (C : (FindInventories Examples.env_ok Background [7] ""
                 Examples.fifty).1.1.2 <> "") by (vm_compute; discriminate).
  destruct (FindInventories Examples.env_ok Background [7] "" Examples.fifty)
    as [[[invs cursor] err] s'].
  simpl in *. by rewrite (H C).
Defined.

(** ** What the four writers do to the store *)

(** [CreateInventory] writes at most the record of its identifier, and
    that under the identifier as [FileID]. *)
Lemma CreateInventory_store e (s : State) (fileID : string)
      (personality : list Key) (userID : Z) (config : Config) :
  let '((i, err), s') :=
    CreateInventory e Background fileID personality userID config s in
  txn s' = txn s /\ logs s' = logs s /\ fetched s' = fetched s /\
  blobs s' = blobs s /\
  ((err <> None /\ store s' = store s) \/
   exists r, i = Some r /\ err = None /\ FileID r = fileID /\
             store s' = <[fileID := r]> (store s)).
Proof.
  go_unfold.
  destruct (get_fault e); simpl; [ split_and!; try done; by left |].
  destruct (store s !! fileID) as [r0|]; simpl.
  - destruct (IsAdmin config userID || (Creator r0 =? userID)); simpl;
      [ | split_and!; try done; by left ].
    destruct (put_fault e); simpl; split_and!; try done; [ by left |].
    right. eexists. split_and!; try done. by destruct (Creator r0 =? 0).
  - destruct (put_fault e); simpl; split_and!; try done; [ by left |].
    right. eexists. split_and!; done.
Qed.

(** [IncrementUsageCounter] leaves the store alone or replaces the
    record of its identifier by the used one; it returns nil on an
    identifier without a record unless a service fails. *)
Lemma IncrementUsageCounter_store e (s : State) (fileID : string) :
  let '(err, s') := IncrementUsageCounter e Background fileID s in
  txn s' = txn s /\ logs s' = logs s /\ fetched s' = fetched s /\
  blobs s' = blobs s /\
  (store s' = store s /\ (err = None -> store s !! fileID = None) \/
   exists r, err = None /\ store s !! fileID = Some r /\
             store s' = <[fileID := used e r]> (store s)).
Proof.
  go_unfold.
  destruct (store s !! fileID) as [r|] eqn:Hr.
  - destruct (begin_fault e), (get_fault e), (put_fault e), (commit_fault e);
      simpl; autorewrite with tx; simpl; rewrite ?Hr; simpl;
      autorewrite with tx; simpl; split_and!; try done.
    all: try (left; split; done).
    right. by exists r.
  - destruct (begin_fault e), (get_fault e), (commit_fault e);
      simpl; autorewrite with tx; simpl; rewrite ?Hr; simpl;
      split_and!; try done; by left.
Qed.

(** [ReplaceFileID] leaves the store alone, with an error, or moves the
    record. *)
Lemma ReplaceFileID_store e (s : State) (oldID newID : string) :
  let '((i, err), s') := ReplaceFileID e Background oldID newID s in
  txn s' = txn s /\ logs s' = logs s /\ fetched s' = fetched s /\
  blobs s' = blobs s /\
  ((err <> None /\ store s' = store s) \/
   exists r, err = None /\ store s !! oldID = Some r /\
             i = set_FileID newID r /\
             store s' = <[newID := set_FileID newID r]> (delete oldID (store s))).
Proof.
  go_unfold.
  on_fault (begin_fault e); [ split_and!; try done; by left |].
  on_fault (get_fault e); [ split_and!; try done; by left |].
  destruct (store s !! oldID) as [r|] eqn:Hr; simpl;
    [ | split_and!; try done; by left ].
  on_fault (delete_fault e); [ split_and!; try done; by left |].
  on_fault (put_fault e); [ split_and!; try done; by left |].
  on_fault (commit_fault e); [ split_and!; try done; by left |].
  split_and!; try done. right. by exists r.
Qed.

(** [UpdateFileMetadata] leaves the store alone, or rewrites the record
    under the identifier Telegram reports, or, with a changed
    identifier, gets no further than deleting it. *)
Lemma UpdateFileMetadata_store e (s : State) (oldID : string) :
  let '(err, s') := UpdateFileMetadata e Background oldID s in
  txn s' = txn s /\ fetched s' = (fetched s ++ [oldID])%list /\
  ((store s' = store s /\
    (err = None -> store s !! oldID = None /\
                   exists file b, media e oldID = FetchOk file b)) \/
   exists r file b,
     store s !! oldID = Some r /\ media e oldID = FetchOk file b /\
     let newID := file_FileID file in
     let r' := set_FileSize (file_FileSize file)
                 (set_MD5Sum (md5_Sum e b) (set_FileID newID r)) in
     (store s' = <[newID := r']> (delete oldID (store s)) /\
      (commit_fault e = None -> err = None)) \/
     (err <> None /\ newID <> oldID /\ store s' = delete oldID (store s))).
Proof.
  go_unfold.
  destruct (media e oldID) as [file b|ferr] eqn:Hm; simpl;
    [ | split_and!; try done; left; split; done ].
  assert (Hleft : forall (s0 : State) (err : option error),
    store s0 = store s -> err <> None ->
    (store s0 = store s /\
     (err = None -> store s !! oldID = None /\
        exists file0 b0, FetchOk file b = FetchOk file0 b0)) \/
    (exists r file0 b0,
       store s !! oldID = Some r /\ FetchOk file b = FetchOk file0 b0 /\
       let newID := file_FileID file0 in
       let r' := set_FileSize (file_FileSize file0)
                   (set_MD5Sum (md5_Sum e b0) (set_FileID newID r)) in
       (store s0 = <[newID := r']> (delete oldID (store s)) /\
        (commit_fault e = None -> err = None)) \/
       (err <> None /\ newID <> oldID /\ store s0 = delete oldID (store s)))).
  { intros s0 err Hs Herr. left. split; [ done | by intros ]. }
  destruct (decide (file_FileID file = oldID)) as [Heq|Hne].
  - rewrite (bool_decide_eq_false_2 (file_FileID file ≠ oldID)) by (by intros []).
    rewrite (bool_decide_eq_false_2 (oldID ≠ file_FileID file)) by (by intros []).
    simpl.
    destruct (IsDevAppServer e); simpl.
    all: try (destruct (gcs_fault e); simpl;
              [ split_and!; try done; by apply Hleft |]).
    all: destruct (begin_fault e); simpl;
      [ split_and!; try done; by apply Hleft |].
    all: destruct (get_fault e); simpl;
      [ split_and!; try done; by apply Hleft |].
    all: destruct (store s !! oldID) as [r|] eqn:Hr; simpl.
    all: try (destruct (commit_fault e); simpl; split_and!; try done;
              [ by apply Hleft | left; split; [ done | intros _; split; eauto ] ]).
    all: destruct (put_fault e); simpl;
      [ split_and!; try done; by apply Hleft |].
    all: destruct (commit_fault e); simpl; (split_and!; try done);
      right; exists r, file, b; (split_and!; try done).
    all: left; rewrite Heq, insert_delete_eq; split; done.
  - rewrite (bool_decide_eq_true_2 (file_FileID file ≠ oldID)) by done.
    rewrite (bool_decide_eq_true_2 (oldID ≠ file_FileID file)) by (by intros ->).
    simpl.
    destruct (IsDevAppServer e); simpl.
    all: try (destruct (gcs_fault e); simpl;
              [ split_and!; try done; by apply Hleft |]).
    all: destruct (begin_fault e); simpl;
      [ split_and!; try done; by apply Hleft |].
    all: destruct (get_fault e); simpl;
      [ split_and!; try done; by apply Hleft |].
    all: destruct (store s !! oldID) as [r|] eqn:Hr; simpl.
    all: try (destruct (commit_fault e); simpl; split_and!; try done;
              [ by apply Hleft | left; split; [ done | intros _; split; eauto ] ]).
    all: destruct (delete_fault e); simpl;
      [ split_and!; try done; by apply Hleft |].
    all: destruct (put_fault e); simpl;
      [ split_and!; try done; right; exists r, file, b;
        split_and!; try done; right; split_and!; done |].
    all: destruct (commit_fault e); simpl; (split_and!; try done);
      right; exists r, file, b; (split_and!; try done).
    all: left; split; done.
Qed.

(** ** Records stay under their own identifier *)

(** X7: If every record is stored under its [FileID], it still is after
    any call of [CreateInventory], [IncrementUsageCounter],
    [ReplaceFileID] or [UpdateFileMetadata], whatever fails on the
    way. *)
Theorem writers_keep_identifiers e (s : State) :
  map_Forall (fun k r => FileID r = k) (store s) ->
  (forall fileID personality userID config,
     map_Forall (fun k r => FileID r = k)
       (store (CreateInventory e Background fileID personality userID
                               config s).2)) /\
  (forall fileID,
     map_Forall (fun k r => FileID r = k)
       (store (IncrementUsageCounter e Background fileID s).2)) /\
  (forall oldID newID,
     map_Forall (fun k r => FileID r = k)
       (store (ReplaceFileID e Background oldID newID s).2)) /\
  (forall oldID,
     map_Forall (fun k r => FileID r = k)
       (store (UpdateFileMetadata e Background oldID s).2)).
Proof.
  intros Hs. split_and!.
  - intros fileID personality userID config.
    pose proof (CreateInventory_store e s fileID personality userID config) as H.
    destruct (CreateInventory _ _ _ _ _ _ _) as [[i err] s']. simpl.
    destruct H as (_ & _ & _ & _ & [[_ ->] | (r & _ & _ & Hid & ->)]);
      [ done |].
    by apply map_Forall_insert_2.
  - intros fileID.
    pose proof (IncrementUsageCounter_store e s fileID) as H.
    destruct (IncrementUsageCounter _ _ _ _) as [err s']. simpl.
    destruct H as (_ & _ & _ & _ & [[-> _] | (r & _ & Hr & ->)]); [ done |].
    apply map_Forall_insert_2; [ | done ]. apply (Hs _ _ Hr).
  - intros oldID newID.
    pose proof (ReplaceFileID_store e s oldID newID) as H.
    destruct (ReplaceFileID _ _ _ _ _) as [[i err] s']. simpl.
    destruct H as (_ & _ & _ & _ & [[_ ->] | (r & _ & _ & _ & ->)]); [ done |].
    apply map_Forall_insert_2; [ done |]. by apply map_Forall_delete.
  - intros oldID.
    pose proof (UpdateFileMetadata_store e s oldID) as H.
    destruct (UpdateFileMetadata _ _ _ _) as [err s']. simpl.
    destruct H as (_ & _ & [[-> _] | (r & file & b & _ & _ & H)]); [ done |].
    cbv zeta in H. destruct H as [[-> _] | (_ & _ & ->)].
    + apply map_Forall_insert_2; [ done |]. by apply map_Forall_delete.
    + by apply map_Forall_delete.
Qed.

(** The theorem at the store of three records, renaming "a" to "z". *)
Lemma writers_keep_identifiers_witness :
  map_Forall (fun k r => FileID r = k)
    (store (ReplaceFileID Examples.env_ok Background "a" "z" Examples.three).2).
Proof.
  apply (writers_keep_identifiers Examples.env_ok Examples.three).
  unfold Examples.three, Examples.world. simpl.
  repeat (apply map_Forall_insert_2; [ reflexivity |]).
  apply map_Forall_empty.
Defined.

(** ** The writers touch the records they name and no other *)

(** X8: A key that is neither the identifier a writer is called with nor
    the identifier it renames to (for [UpdateFileMetadata]: the one
    Telegram reports) holds the same record, or none, before and after
    the call. *)
Theorem writers_frame e (s : State) (k : string) :
  (forall fileID personality userID config, k <> fileID ->
     store (CreateInventory e Background fileID personality userID
                            config s).2 !! k = store s !! k) /\
  (forall fileID, k <> fileID ->
     store (IncrementUsageCounter e Background fileID s).2 !! k
       = store s !! k) /\
  (forall oldID newID, k <> oldID -> k <> newID ->
     store (ReplaceFileID e Background oldID newID s).2 !! k = store s !! k) /\
  (forall oldID, k <> oldID ->
     (forall file b, media e oldID = FetchOk file b -> k <> file_FileID file) ->
     store (UpdateFileMetadata e Background oldID s).2 !! k = store s !! k).
Proof.
  split_and!.
  - intros fileID personality userID config Hk.
    pose proof (CreateInventory_store e s fileID personality userID config) as H.
    destruct (CreateInventory _ _ _ _ _ _ _) as [[i err] s']. simpl.
    destruct H as (_ & _ & _ & _ & [[_ ->] | (r & _ & _ & _ & ->)]);
      [ done |].
    simpl. by rewrite lookup_insert_ne.
  - intros fileID Hk.
    pose proof (IncrementUsageCounter_store e s fileID) as H.
    destruct (IncrementUsageCounter _ _ _ _) as [err s']. simpl.
    destruct H as (_ & _ & _ & _ & [[-> _] | (r & _ & _ & ->)]); [ done |].
    simpl. by rewrite lookup_insert_ne.
  - intros oldID newID Hold Hnew.
    pose proof (ReplaceFileID_store e s oldID newID) as H.
    destruct (ReplaceFileID _ _ _ _ _) as [[i err] s']. simpl.
    destruct H as (_ & _ & _ & _ & [[_ ->] | (r & _ & _ & _ & ->)]); [ done |].
    simpl. rewrite lookup_insert_ne by done. by rewrite lookup_delete_ne.
  - intros oldID Hold Hnew.
    pose proof (UpdateFileMetadata_store e s oldID) as H.
    destruct (UpdateFileMetadata _ _ _ _) as [err s']. simpl.
    destruct H as (_ & _ & [[-> _] | (r & file & b & _ & Hm & H)]); [ done |].
    cbv zeta in H. specialize (Hnew file b Hm).
    destruct H as [[-> _] | (_ & _ & ->)]; simpl.
    + rewrite lookup_insert_ne by done. by rewrite lookup_delete_ne.
    + by rewrite lookup_delete_ne.
Qed.

(** The theorem at the store of three records: renaming "a" to "z"
    leaves "b" where it is. *)
Lemma writers_frame_witness :
  store (ReplaceFileID Examples.env_ok Background "a" "z" Examples.three).2 !! "b"
  = Some (Examples.rec "b" 2 20).
Proof.
  destruct (writers_frame Examples.env_ok Examples.three "b") as (_ & _ & H & _).
  rewrite (H "a" "z") by done. by vm_compute.
Defined.

(** ** Renaming there and back, and renaming onto a record *)

(** With every service answering, [ReplaceFileID] on a stored record
    succeeds and moves it. *)
Lemma ReplaceFileID_ok e (s : State) (oldID newID : string) (r : Inventory) :
  begin_fault e = None -> get_fault e = None -> delete_fault e = None ->
  put_fault e = None -> commit_fault e = None ->
  store s !! oldID = Some r ->
  ReplaceFileID e Background oldID newID s
  = ((set_FileID newID r, None),
     with_store (<[newID := set_FileID newID r]> (delete oldID (store s))) s).
Proof.
  intros B G D P C Hr. go_unfold. rewrite B, G, D, P, C. simpl.
  rewrite Hr. simpl. by destruct s.
Qed.

(** X9: Renaming a record to a free identifier and back again brings back
    the state the first call started from, the record included. *)
Theorem ReplaceFileID_round_trip e (s : State) (a b : string) (r : Inventory) :
  begin_fault e = None -> get_fault e = None -> delete_fault e = None ->
  put_fault e = None -> commit_fault e = None ->
  store s !! a = Some r -> FileID r = a -> store s !! b = None ->
  let s1 := (ReplaceFileID e Background a b s).2 in
  ReplaceFileID e Background b a s1 = ((r, None), s).
Proof.
  intros B G D P C Hr Hid Hb. cbv zeta.
  assert (Hab : a <> b) by (intros ->; congruence).
  rewrite (ReplaceFileID_ok e s a b r) by done. cbn [snd].
  rewrite (ReplaceFileID_ok e _ b a (set_FileID b r)); try done.
  2:{ simpl. by rewrite lookup_insert_eq. }
  assert (Hrec : set_FileID a (set_FileID b r) = r).
  { destruct r; simpl in *. by subst. }
  rewrite Hrec. f_equal.
  destruct s as [st t l f bl]. unfold with_store. simpl in *. f_equal.
  rewrite delete_insert_eq.
  rewrite (delete_id (delete a st) b) by (by rewrite lookup_delete_ne).
  by apply insert_delete_id.
Qed.

(** The theorem at the store of three records: "a" to "z" and back. *)
Lemma ReplaceFileID_round_trip_witness :
  ReplaceFileID Examples.env_ok Background "z" "a"
    (ReplaceFileID Examples.env_ok Background "a" "z" Examples.three).2
  = ((Examples.rec "a" 1 10, None), Examples.three).
Proof.
  apply (ReplaceFileID_round_trip Examples.env_ok Examples.three "a" "z"
           (Examples.rec "a" 1 10)); try reflexivity; by vm_compute.
Defined.

(** X10: [ReplaceFileID] does not look at the identifier it renames to: a
    record stored there is replaced without an error, and the store
    holds one record fewer. *)
Theorem ReplaceFileID_overwrites e (s : State) (oldID newID : string)
        (r r2 : Inventory) :
  begin_fault e = None -> get_fault e = None -> delete_fault e = None ->
  put_fault e = None -> commit_fault e = None ->
  oldID <> newID ->
  store s !! oldID = Some r -> store s !! newID = Some r2 ->
  let '((i, err), s') := ReplaceFileID e Background oldID newID s in
  err = None /\
  store s' !! newID = Some (set_FileID newID r) /\
  store s' !! oldID = None /\
  size (store s') = pred (size (store s)).
Proof.
  intros B G D P C Hne Hr Hr2.
  rewrite (ReplaceFileID_ok e s oldID newID r) by done. simpl.
  split_and!; [ done | by rewrite lookup_insert_eq | |].
  - rewrite lookup_insert_ne by done. by rewrite lookup_delete_eq.
  - rewrite map_size_insert_Some.
    + by rewrite map_size_delete_Some.
    + rewrite lookup_delete_ne by done. by eexists.
Qed.

(** The theorem at the store of three records: renaming "a" to "b"
    leaves two records, and what was "b" (used 20 times) is gone. *)
Lemma ReplaceFileID_overwrites_witness :
  let s' := (ReplaceFileID Examples.env_ok Background "a" "b" Examples.three).2 in
  store s' !! "b" = Some (Examples.rec "b" 1 10) /\ size (store s') = 2%nat.
Proof.
  pose proof (ReplaceFileID_overwrites Examples.env_ok Examples.three "a" "b"
                (Examples.rec "a" 1 10) (Examples.rec "b" 2 20)
                eq_refl eq_refl eq_refl eq_refl eq_refl ltac:(done)
                ltac:(by vm_compute) ltac:(by vm_compute)) as H.
  destruct (ReplaceFileID Examples.env_ok Background "a" "b" Examples.three)
    as [[i err] s'].
  destruct H as (_ & Hb & _ & Hsize). simpl. split; [ exact Hb |].
  rewrite Hsize. by vm_compute.
Defined.

(** ** Counting uses *)

Lemma IncrementUsageCounter_ok e (s : State) (fileID : string) (r : Inventory) :
  begin_fault e = None -> get_fault e = None ->
  put_fault e = None -> commit_fault e = None ->
  store s !! fileID = Some r ->
  IncrementUsageCounter e Background fileID s
  = (None, with_store (<[fileID := used e r]> (store s)) s).
Proof.
  intros B G P C Hr. go_unfold. rewrite B, G, P, C. simpl.
  autorewrite with tx. simpl. rewrite Hr. simpl. autorewrite with tx. simpl.
  by destruct s.
Qed.

(** X11: [n + 1] calls of [IncrementUsageCounter] on a stored record, with
    the datastore answering, add [n + 1] to its counter as long as the
    sum fits an [int64], set [LastUsed] to the current time and change
    nothing else in the state. *)
Theorem IncrementUsageCounter_iter e (s : State) (fileID : string)
        (r : Inventory) (n : nat) :
  begin_fault e = None -> get_fault e = None ->
  put_fault e = None -> commit_fault e = None ->
  store s !! fileID = Some r ->
  MinInt <= UsageCount r -> UsageCount r + Z.of_nat (S n) <= MaxInt ->
  Nat.iter (S n) (fun s => (IncrementUsageCounter e Background fileID s).2) s
  = with_store (<[fileID := set_LastUsed (time_Now e)
                              (set_UsageCount (UsageCount r + Z.of_nat (S n)) r)]>
                  (store s)) s.
Proof.
  intros B G P C Hr Hmin. induction n as [|n IH]; intros Hmax.
  - simpl Nat.iter. rewrite (IncrementUsageCounter_ok e s fileID r) by done.
    cbn [snd]. unfold used. rewrite add_exact by lia. done.
  - change (Nat.iter (S (S n)) ?f s) with (f (Nat.iter (S n) f s)).
    assert (Hfit : MinInt <= UsageCount r + Z.of_nat (S n) + 1 <= MaxInt)
      by (clear IH; lia).
    rewrite IH by (clear IH; lia). clear IH.
    erewrite IncrementUsageCounter_ok; try done.
    2:{ simpl. apply lookup_insert_eq. }
    cbn [snd]. unfold used, with_store. simpl.
    rewrite insert_insert_eq.
    rewrite add_exact by exact Hfit.
    replace (UsageCount r + Z.of_nat (S n) + 1)
      with (UsageCount r + Z.of_nat (S (S n))) by lia.
    done.
Qed.

(** The theorem at the store of three records: three uses of "a" bring
    its counter from 10 to 13. *)
Lemma IncrementUsageCounter_iter_witness :
  UsageCount <$>
    (store (Nat.iter 3 (fun s => (IncrementUsageCounter Examples.env_ok Background
                                    "a" s).2) Examples.three) !! "a")
  = Some 13.
Proof.
  rewrite (IncrementUsageCounter_iter Examples.env_ok Examples.three "a"
             (Examples.rec "a" 1 10) 2); try reflexivity; by vm_compute.
Defined.

(** ** [UpdateFileMetadata]: the blob, the log and the record *)

(** X12: What [UpdateFileMetadata] writes to the blob store does not depend
    on the datastore: nothing when the fetch fails, on the development
    server or when the upload fails, and otherwise the fetched bytes
    under the identifier Telegram reports, be there a record to update
    or not.  When the fetch or the upload fails, the call returns that
    error without a log entry and without touching the store. *)
Theorem UpdateFileMetadata_blob e (s : State) (oldID : string) :
  let '(err, s') := UpdateFileMetadata e Background oldID s in
  match media e oldID with
  | FetchErr ferr =>
      err = Some ferr /\ blobs s' = blobs s /\ store s' = store s /\
      logs s' = logs s
  | FetchOk file b =>
      if IsDevAppServer e then blobs s' = blobs s
      else
        match gcs_fault e with
        | Some msg =>
            err = Some (ErrOther msg) /\ blobs s' = blobs s /\
            store s' = store s /\
            (file_FileID file = oldID -> logs s' = logs s)
        | None => blobs s' = (blobs s ++ [(file_FileID file, b)])%list
        end
  end.
Proof.
  go_unfold.
  destruct (media e oldID) as [file b|ferr]; simpl; [ | done ].
  destruct (bool_decide (file_FileID file ≠ oldID)) eqn:Hid; simpl.
  all: destruct (IsDevAppServer e); simpl.
  all: try (destruct (gcs_fault e); simpl;
            [ split_and!; try done;
              intros Heq; by apply bool_decide_eq_true in Hid |]).
  all: try (destruct (gcs_fault e); simpl; [ done |]).
  all: destruct (begin_fault e); simpl; [ done |].
  all: destruct (get_fault e); simpl; [ done |].
  all: destruct (store s !! oldID); simpl.
  all: try (destruct (commit_fault e); done).
  all: destruct (bool_decide (oldID ≠ file_FileID file)); simpl.
  all: try (destruct (delete_fault e); simpl; [ done |]).
  all: destruct (put_fault e); simpl; [ done |].
  all: destruct (commit_fault e); done.
Qed.

(** X13: On a stored record, with Telegram, the blob store and the
    datastore answering, [UpdateFileMetadata] returns nil and leaves
    the record under the identifier Telegram reports, with that
    identifier, the hash of the fetched bytes and the reported size,
    and with its other fields as they were; it logs the change of
    identifier, if any, and then the new metadata.  Without a record
    it returns nil and leaves the store as it is. *)
Theorem UpdateFileMetadata_refreshes e (s : State) (oldID : string)
        (file : File) (b : list Byte.byte) :
  media e oldID = FetchOk file b ->
  gcs_fault e = None -> begin_fault e = None -> get_fault e = None ->
  delete_fault e = None -> put_fault e = None -> commit_fault e = None ->
  let '(err, s') := UpdateFileMetadata e Background oldID s in
  let newID := file_FileID file in
  let entry := mkLog Info "File %s: %x (%d bytes)"
                     [ArgString newID; ArgBytes (md5_Sum e b);
                      ArgInt (file_FileSize file)] in
  err = None /\
  logs s' = (logs s ++
             (if bool_decide (newID = oldID) then []
              else [mkLog Info "Detected FileID change %s -> %s"
                          [ArgString oldID; ArgString newID]]) ++
             [entry])%list /\
  match store s !! oldID with
  | None => store s' = store s
  | Some r =>
      store s' = <[newID := mkInventory newID (FileType r) (Personality r)
                              (Creator r) (UsageCount r) (LastUsed r)
                              (md5_Sum e b) (file_FileSize file)]>
                   (delete oldID (store s))
  end.
Proof.
  intros Hm Hgcs B G D P C. go_unfold. rewrite Hm, Hgcs, B, G, D, P, C. simpl.
  destruct (decide (file_FileID file = oldID)) as [Heq|Hne].
  - rewrite (bool_decide_eq_false_2 (file_FileID file ≠ oldID)) by (by intros []).
    rewrite (bool_decide_eq_false_2 (oldID ≠ file_FileID file)) by (by intros []).
    rewrite (bool_decide_eq_true_2 (file_FileID file = oldID)) by done.
    destruct (IsDevAppServer e); simpl;
      destruct (store s !! oldID) as [r|] eqn:Hr; simpl;
      split_and!; try done.
    all: by rewrite Heq, insert_delete_eq.
  - rewrite (bool_decide_eq_true_2 (file_FileID file ≠ oldID)) by done.
    rewrite (bool_decide_eq_true_2 (oldID ≠ file_FileID file)) by (by intros ->).
    rewrite (bool_decide_eq_false_2 (file_FileID file = oldID)) by done.
    destruct (IsDevAppServer e); simpl;
      destruct (store s !! oldID) as [r|] eqn:Hr; simpl;
      split_and!; try done.
    all: by rewrite <- app_assoc.
Qed.

(** The theorem at a store holding the one record "old", which
    Telegram now calls "new": the record moves and takes the reported
    size. *)
Lemma UpdateFileMetadata_refreshes_witness :
  let s' := (UpdateFileMetadata
               (mkEnv 1000 "mpeg4_gif" false (fun b => b)
                      (fun id => FetchOk (mkFile "new" 4) [])
                      None None None None None None None)
               Background "old" Examples.only_old).2 in
  store s' !! "old" = None /\
  FileSize <$> (store s' !! "new") = Some 4 /\ length (logs s') = 2%nat.
Proof.
  pose proof (UpdateFileMetadata_refreshes
                (mkEnv 1000 "mpeg4_gif" false (fun b => b)
                       (fun id => FetchOk (mkFile "new" 4) [])
                       None None None None None None None)
                Examples.only_old "old" (mkFile "new" 4) []
                eq_refl eq_refl eq_refl eq_refl eq_refl eq_refl eq_refl) as H.
  destruct (UpdateFileMetadata _ Background "old" Examples.only_old) as [err s'].
  cbv zeta in H. destruct H as (_ & Hlogs & Hstore).
  replace (store Examples.only_old !! "old")
    with (Some (Examples.rec "old" 1 10)) in Hstore by (by vm_compute).
  simpl. rewrite Hstore, Hlogs. by vm_compute.
Defined.

(** X14: A commit that fails does not take back what the closure did, since
    the closure wrote on the caller's context: [UpdateFileMetadata]
    returns the error of the commit and the store holds the updated
    record all the same. *)
Theorem UpdateFileMetadata_failed_commit e (s : State) (oldID : string)
        (r : Inventory) (file : File) (b : list Byte.byte) (msg : string) :
  store s !! oldID = Some r ->
  media e oldID = FetchOk file b ->
  gcs_fault e = None -> begin_fault e = None -> get_fault e = None ->
  delete_fault e = None -> put_fault e = None ->
  commit_fault e = Some msg ->
  let '(err, s') := UpdateFileMetadata e Background oldID s in
  let newID := file_FileID file in
  err = Some (ErrOther msg) /\
  store s' !! newID
    = Some (set_FileSize (file_FileSize file)
              (set_MD5Sum (md5_Sum e b) (set_FileID newID r))) /\
  (newID <> oldID -> store s' !! oldID = None).
Proof.
  intros Hr Hm Hgcs B G D P C. go_unfold.
  rewrite Hm, Hgcs, B, G, D, P, C. simpl.
  destruct (decide (file_FileID file = oldID)) as [Heq|Hne].
  - rewrite (bool_decide_eq_false_2 (file_FileID file ≠ oldID)) by (by intros []).
    rewrite (bool_decide_eq_false_2 (oldID ≠ file_FileID file)) by (by intros []).
    destruct (IsDevAppServer e); simpl; rewrite Hr; simpl;
      (split_and!; [ done | by rewrite lookup_insert_eq | done ]).
  - rewrite (bool_decide_eq_true_2 (file_FileID file ≠ oldID)) by done.
    rewrite (bool_decide_eq_true_2 (oldID ≠ file_FileID file)) by (by intros ->).
    destruct (IsDevAppServer e); simpl; rewrite Hr; simpl;
      (split_and!; [ done | by rewrite lookup_insert_eq |]).
    all: intros _; rewrite lookup_insert_ne by done; apply lookup_delete_eq.
Qed.

(** The theorem at the one record "old", Telegram reporting the same
    identifier with size 4, and a commit that fails: the error comes
    back and the stored size is 4. *)
Lemma UpdateFileMetadata_failed_commit_witness :
  let '(err, s') :=
    UpdateFileMetadata
      (mkEnv 1000 "mpeg4_gif" false (fun b => b)
             (fun id => FetchOk (mkFile id 4) [])
             None None None None None None (Some "commit: aborted"))
      Background "old" Examples.only_old in
  err = Some (ErrOther "commit: aborted") /\
  FileSize <$> (store s' !! "old") = Some 4 /\
  FileSize <$> (store Examples.only_old !! "old") = Some 3.
Proof.
  pose proof (UpdateFileMetadata_failed_commit
                (mkEnv 1000 "mpeg4_gif" false (fun b => b)
                       (fun id => FetchOk (mkFile id 4) [])
                       None None None None None None (Some "commit: aborted"))
                Examples.only_old "old" (Examples.rec "old" 1 10)
                (mkFile "old" 4) [] "commit: aborted"
                ltac:(by vm_compute) eq_refl eq_refl eq_refl eq_refl eq_refl
                eq_refl eq_refl) as H.
  destruct (UpdateFileMetadata _ Background "old" Examples.only_old) as [err s'].
  cbv zeta in H. destruct H as (-> & Hnew & _).
  split; [ done |]. split; [ | by vm_compute ].
  simpl in Hnew. by rewrite Hnew.
Defined.

(** ** Creating and reading back *)



(** ** Lookup by content when the datastore does not answer *)

(** X16: When the query RPC fails, [GetInventoryByFile] returns the error
    of the size count and no record; nothing is fetched from Telegram
    and the state is the one it started from. *)
Theorem GetInventoryByFile_query_error e (s : State) (fileID : string)
        (fileSize : Z) (msg : string) :
  query_fault e = Some msg ->
  GetInventoryByFile e Background fileID fileSize s
  = ((None, Some (ErrOther msg)), s).
Proof. intros Hq. go_unfold. by rewrite Hq. Qed.

(** The theorem at the store of three records with a failing query. *)
Lemma GetInventoryByFile_query_error_witness :
  GetInventoryByFile
    (mkEnv 1000 "mpeg4_gif" false (fun b => b)
           (fun id => FetchOk (mkFile id 3) [])
           None None None None (Some "query: unavailable") None None)
    Background "a" 3 Examples.three
  = ((None, Some (ErrOther "query: unavailable")), Examples.three).
Proof.
  by apply (GetInventoryByFile_query_error _ Examples.three "a" 3
              "query: unavailable").
Defined.

(** ** The display form of a record *)

Lemma collect_names (ps : list PersonalityRecord) (acc : list string) :
  fold_left (fun pns p => (pns ++ [CanonicalName p])%list) ps acc
  = (acc ++ (CanonicalName <$> ps))%list.
Proof.
  revert acc. induction ps as [|p ps IH]; intros acc; simpl.
  - by rewrite app_nil_r.
  - rewrite IH. by rewrite <- app_assoc.
Qed.

Lemma lookups_all (directory : gmap Key PersonalityRecord) (keys : list Key) :
  match mapM (fun k => directory !! k) keys with
  | Some ps =>
      forallb (fun o => bool_decide (is_Some o))
              ((fun k => directory !! k) <$> keys) = true /\
      default (mkPersonality "") <$> ((fun k => directory !! k) <$> keys) = ps
  | None =>
      forallb (fun o => bool_decide (is_Some o))
              ((fun k => directory !! k) <$> keys) = false
  end.
Proof.
  induction keys as [|k keys IH]; [ done |].
  rewrite !fmap_cons. cbn [mapM forallb].
  destruct (directory !! k) as [p|]; simpl; [ | done ].
  destruct (mapM _ keys) as [ps|]; simpl.
  - destruct IH as [-> <-]. done.
  - by rewrite IH.
Qed.

(** X17: With the datastore answering, [ToString] gives the identifier
    followed by the canonical names of the record's personalities, in
    their order and separated by commas, between square brackets; if
    one of the personalities is not in the directory it gives the empty
    string and the error of the read, never a partial list. *)
Theorem ToString_names e (directory : gmap Key PersonalityRecord)
        (i : Inventory) :
  get_fault e = None ->
  match mapM (fun k => directory !! k) (Personality i) with
  | Some ps =>
      ToString e directory i
      = (FileID i ++ " [" ++ Join (CanonicalName <$> ps) ", " ++ "]", None)
  | None => ToString e directory i = ("", Some ErrMulti)
  end.
Proof.
  intros Hg. unfold ToString, Personality_GetMulti, fault. rewrite Hg. simpl.
  pose proof (lookups_all directory (Personality i)) as H.
  destruct (mapM _ (Personality i)) as [ps|].
  - destruct H as [-> ->]. simpl. by rewrite collect_names.
  - by rewrite H.
Qed.

(** The theorem at a record tagged 7 and 8, in a directory that knows
    both, and in one that knows only 7. *)
Lemma ToString_names_witness :
  ToString Examples.env_ok
           (<[7 := mkPersonality "Ayane"]> {[8 := mkPersonality "Minori"]})
           (mkInventory "f" "mpeg4_gif" [7; 8] 1 0 0 [] 3)
  = ("f [Ayane, Minori]", None) /\
  ToString Examples.env_ok {[7 := mkPersonality "Ayane"]}
           (mkInventory "f" "mpeg4_gif" [7; 8] 1 0 0 [] 3)
  = ("", Some ErrMulti).
Proof.
  split.
  - pose proof (ToString_names Examples.env_ok
                  (<[7 := mkPersonality "Ayane"]> {[8 := mkPersonality "Minori"]})
                  (mkInventory "f" "mpeg4_gif" [7; 8] 1 0 0 [] 3) eq_refl) as H.
    cbn [Personality] in H.
    replace (mapM _ [7; 8])
      with (Some [mkPersonality "Ayane"; mkPersonality "Minori"]) in H
      by (by vm_compute).
    rewrite H. reflexivity.
  - pose proof (ToString_names Examples.env_ok {[7 := mkPersonality "Ayane"]}
                  (mkInventory "f" "mpeg4_gif" [7; 8] 1 0 0 [] 3) eq_refl) as H.
    cbn [Personality] in H.
    replace (mapM _ [7; 8]) with (@None (list PersonalityRecord)) in H
      by (by vm_compute).
    exact H.
Defined.

(** * Further properties of the knowledge-graph lookup *)

(** ** When the backend is asked *)

(** X18: A call that finds nothing to serve in the cache, because memcache
    fails, because there is no entry for the query, or because the
    entry, stored with the four hours [setKGMemcache] gives, has
    expired, asks the backend: one request is sent, whatever comes of
    it. *)
Theorem TryFindKGEntity_miss_asks_backend (e : KGEnv) (query : string)
        (s : KGState) :
  service_fault e = None ->
  (memcache_get_fault e <> None \/
   cache s !! ("KG1:" ++ query) = None \/
   exists v t, cache s !! ("KG1:" ++ query)
               = Some (mkItem ("KG1:" ++ query) v (4 * Hour), t) /\
               t + 4 * Hour <= kg_Now e) ->
  (getKGMemcache e query s).1 = Done None /\
  requests (TryFindKGEntity e query s).2
  = (requests s ++ [mkRequest query ["ja"; "zh"] ["Person"] 1])%list.
Proof.
  intros Hsvc Hmiss.
  assert (Hnone : getKGMemcache e query s = (Done None, s)).
  { kg_unfold. unfold getKGMemcacheKey, kgMemcacheKey.
    destruct Hmiss as [Hf | [Hc | (v & t & Hc & Ht)]].
    - by destruct (memcache_get_fault e).
    - destruct (memcache_get_fault e); simpl; [ done |]. by rewrite Hc.
    - destruct (memcache_get_fault e); simpl; [ done |]. rewrite Hc.
      unfold live. simpl.
      replace (kg_Now e <? t + 4 * Hour) with false
        by (symmetry; apply Z.ltb_ge; lia).
      done. }
  split; [ by rewrite Hnone |].
  unfold TryFindKGEntity, mbind, K_bind, kbind. rewrite Hnone.
  kg_unfold. rewrite Hsvc. simpl.
  destruct (search e _) as [items|msg]; simpl; [ | done ].
  destruct items as [|[| | | | |item] items]; simpl; try done.
  - by destruct (memcache_set_fault e).
  - destruct (index item "result") as [| | | | |result]; simpl; try done.
    destruct (index result "@id"); simpl; try done.
    by destruct (memcache_set_fault e).
Qed.

(** The theorem four hours after "known" was cached: the entry is no
    longer served and the backend is asked again. *)
Lemma TryFindKGEntity_miss_asks_backend_witness :
  let s1 := (TryFindKGEntity KGExamples.kg_ok "known" KGExamples.cold).2 in
  let later := mkKGEnv (1000 + 4 * Hour) None KGExamples.answers None None in
  length (requests s1) = 1%nat /\
  length (requests (TryFindKGEntity later "known" s1).2) = 2%nat.
Proof.
  cbv zeta. split; [ by vm_compute |].
  destruct (TryFindKGEntity_miss_asks_backend
              (mkKGEnv (1000 + 4 * Hour) None KGExamples.answers None None)
              "known"
              (TryFindKGEntity KGExamples.kg_ok "known" KGExamples.cold).2
              eq_refl) as [_ Hreq].
  { right. right. exists "/m/0abc", 1000. split; [ by vm_compute | simpl; lia ]. }
  rewrite Hreq. by vm_compute.
Defined.

(** ** One query, one entry *)

Lemma getKGMemcacheKey_inj (q1 q2 : string) :
  getKGMemcacheKey q1 = getKGMemcacheKey q2 -> q1 = q2.
Proof.
  unfold getKGMemcacheKey, kgMemcacheKey. intros H.
  injection H as H. exact H.
Qed.

(** X19: A call for one query leaves what the cache answers for every
    other query as it was, on each of its exit paths. *)
Theorem TryFindKGEntity_other_queries (e : KGEnv) (q1 q2 : string)
        (s : KGState) :
  q1 <> q2 ->
  forall e2, (getKGMemcache e2 q2 (TryFindKGEntity e q1 s).2).1
             = (getKGMemcache e2 q2 s).1.
Proof.
  intros Hne e2.
  assert (Hkey : getKGMemcacheKey q1 <> getKGMemcacheKey q2)
    by (intros H; by apply Hne, getKGMemcacheKey_inj).
  assert (Hcache : cache (TryFindKGEntity e q1 s).2 !! getKGMemcacheKey q2
                   = cache s !! getKGMemcacheKey q2).
  { unfold TryFindKGEntity, mbind, K_bind, kbind.
    pose proof (getKGMemcache_pure e q1 s) as Hpure.
    destruct (getKGMemcache e q1 s) as [[[v|]|msg] s0]; simpl in Hpure;
      subst s0; [ done | | done ].
    kg_unfold. destruct (service_fault e); simpl; [ done |].
    destruct (search e _) as [items|msg]; simpl; [ | done ].
    destruct items as [|[| | | | |item] items]; simpl; try done.
    - destruct (memcache_set_fault e); simpl; [ done |].
      by rewrite lookup_insert_ne.
    - destruct (index item "result") as [| | | | |result]; simpl; try done.
      destruct (index result "@id"); simpl; try done.
      destruct (memcache_set_fault e); simpl; [ done |].
      by rewrite lookup_insert_ne. }
  unfold getKGMemcache, memcache_Get, mbind, K_bind, kbind, mret, K_ret, kret.
  destruct (fault (memcache_get_fault e2)); [ done |].
  rewrite Hcache.
  destruct (cache s !! getKGMemcacheKey q2) as [[it stored]|]; [ | done ].
  by destruct (live e2 it stored).
Qed.

(** The theorem with "nobody" cached as unknown: a call for "known"
    leaves that entry to be served. *)
Lemma TryFindKGEntity_other_queries_witness :
  let s1 := (TryFindKGEntity KGExamples.kg_ok "nobody" KGExamples.cold).2 in
  (getKGMemcache KGExamples.kg_ok "nobody"
                 (TryFindKGEntity KGExamples.kg_ok "known" s1).2).1
  = Done (Some "").
Proof.
  cbv zeta.
  rewrite (TryFindKGEntity_other_queries KGExamples.kg_ok "known" "nobody")
    by done.
  by vm_compute.
Defined.

(** ** What is made of the answer *)

Lemma substring_all (x : string) : String.substring 0 (String.length x) x = x.
Proof. induction x as [|c x IH]; simpl; [ done | by rewrite IH ]. Qed.

Lemma TrimPrefix_kg (x : string) : TrimPrefix ("kg:" ++ x) "kg:" = x.
Proof.
  change ("kg:" ++ x) with (String "k" (String "g" (String ":" x))).
  unfold TrimPrefix. simpl.
  replace (String.prefix "" x) with true by (by destruct x).
  rewrite Nat.sub_0_r. apply substring_all.
Qed.

(** X20: From an answer with at least one item, the lookup reads the first
    item alone: with a [result] object whose [@id] is a string, the
    call returns that string with one leading "kg:" taken off (and as
    it is when it has no such prefix), whatever the other items and
    whether or not memcache takes the entry. *)
Theorem TryFindKGEntity_first_item (e : KGEnv) (query : string) (s : KGState)
        (item result : list (string * JSON)) (rest : list JSON) (id : string) :
  (getKGMemcache e query s).1 = Done None ->
  service_fault e = None ->
  search e (mkRequest query ["ja"; "zh"] ["Person"] 1)
    = SearchOk (JObject item :: rest) ->
  index item "result" = JObject result ->
  index result "@id" = JString id ->
  (TryFindKGEntity e query s).1 = Done (TrimPrefix id "kg:") /\
  (forall x, id = "kg:" ++ x -> (TryFindKGEntity e query s).1 = Done x) /\
  (String.prefix "kg:" id = false -> (TryFindKGEntity e query s).1 = Done id).
Proof.
  intros Hmiss Hsvc Hsearch Hres Hid.
  assert (Hrun : (TryFindKGEntity e query s).1 = Done (TrimPrefix id "kg:")).
  { unfold TryFindKGEntity, mbind, K_bind, kbind.
    pose proof (getKGMemcache_pure e query s) as Hpure.
    destruct (getKGMemcache e query s) as [r0 s0]. simpl in Hmiss, Hpure.
    subst r0 s0. kg_unfold. rewrite Hsvc. simpl. rewrite Hsearch. simpl.
    rewrite Hres. simpl. rewrite Hid. simpl.
    by destruct (memcache_set_fault e). }
  split_and!; [ done | |].
  - intros x ->. by rewrite Hrun, TrimPrefix_kg.
  - intros Hp. rewrite Hrun. unfold TrimPrefix. by rewrite Hp.
Qed.

(** The theorem for the person the search API knows. *)
Lemma TryFindKGEntity_first_item_witness :
  (TryFindKGEntity KGExamples.kg_ok "known" KGExamples.cold).1 = Done "/m/0abc".
Proof.
  destruct (TryFindKGEntity_first_item KGExamples.kg_ok "known" KGExamples.cold
              [("@type", JString "EntitySearchResult");
               ("result", JObject [("@id", JString "kg:/m/0abc");
                                   ("name", JString "Person")])]
              [("@id", JString "kg:/m/0abc"); ("name", JString "Person")]
              [] "kg:/m/0abc" eq_refl eq_refl eq_refl eq_refl eq_refl)
    as (_ & H & _).
  by apply H.
Defined.

(** X21: [TryFindKGEntity] panics exactly when it misses the cache, the
    backend answers, and the first item of the answer is not an object
    with a [result] object whose [@id] is a string; the cache is then
    as it was and nothing is logged. *)
Theorem TryFindKGEntity_panics_iff (e : KGEnv) (query : string) (s : KGState) :
  let malformed :=
    match search e (mkRequest query ["ja"; "zh"] ["Person"] 1) with
    | SearchOk (JObject item :: _) =>
        match index item "result" with
        | JObject result =>
            match index result "@id" with
            | JString _ => False
            | _ => True
            end
        | _ => True
        end
    | SearchOk (_ :: _) => True
    | _ => False
    end in
  ((exists msg, (TryFindKGEntity e query s).1 = Panic msg) <->
   (getKGMemcache e query s).1 = Done None /\ service_fault e = None /\
   malformed) /\
  (forall msg, (TryFindKGEntity e query s).1 = Panic msg ->
     cache (TryFindKGEntity e query s).2 = cache s /\
     kglogs (TryFindKGEntity e query s).2 = kglogs s).
Proof.
  cbv zeta. unfold TryFindKGEntity, mbind, K_bind, kbind.
  pose proof (getKGMemcache_pure e query s) as Hpure.
  assert (Hdone : exists o, (getKGMemcache e query s).1 = Done o).
  { kg_unfold. destruct (memcache_get_fault e); simpl; [ by eexists |].
    destruct (cache s !! _) as [[it stored]|]; [ | by eexists ].
    destruct (live e it stored); by eexists. }
  destruct Hdone as [o Ho].
  destruct (getKGMemcache e query s) as [r0 s0]. simpl in Ho, Hpure.
  subst r0 s0. destruct o as [v|].
  { split; [ split | ]; [ by intros [msg ?] | by intros [? _] | done ]. }
  kg_unfold.
  destruct (service_fault e); simpl.
  { split; [ split | ]; [ by intros [msg ?] | by intros (_ & ? & _) | done ]. }
  destruct (search e _) as [items|msg]; simpl.
  2:{ split; [ split | ]; [ by intros [? ?] | by intros (_ & _ & ?) | done ]. }
  destruct items as [|it items]; simpl.
  { destruct (memcache_set_fault e); simpl;
      (split; [ split | ]; [ by intros [? ?] | by intros (_ & _ & ?) | done ]). }
  destruct it as [| | | | |item]; simpl.
  1-5: split; [ split; [ done | intros _; by eexists ] | done ].
  destruct (index item "result") as [| | | | |result]; simpl.
  1-5: split; [ split; [ done | intros _; by eexists ] | done ].
  destruct (index result "@id"); simpl.
  all: try (split; [ split; [ done | intros _; by eexists ] | done ]).
  destruct (memcache_set_fault e); simpl;
    (split; [ split | ]; [ by intros [? ?] | by intros (_ & _ & ?) | done ]).
Qed.

(** ** The diagnostic query *)

(** X22: [GetKGQueryResult] bypasses memcache: what it returns is the same
    whatever the cache holds, the cache and the log are left as they
    are, and with a service client it sends one request per call.  An
    error of the backend comes back with the empty string. *)
Theorem GetKGQueryResult_bypasses_cache (e : KGEnv)
        (MarshalIndent : option (list (string * JSON)) -> string * option error)
        (query : string) (s : KGState) :
  let '(r, s') := GetKGQueryResult e MarshalIndent query s in
  (forall s2, (GetKGQueryResult e MarshalIndent query s2).1 = r) /\
  cache s' = cache s /\ kglogs s' = kglogs s /\
  (service_fault e = None ->
   requests s' = (requests s ++ [mkRequest query ["ja"; "zh"] ["Person"] 1])%list) /\
  (forall msg,
     service_fault e = Some msg \/
     (service_fault e = None /\
      search e (mkRequest query ["ja"; "zh"] ["Person"] 1) = SearchErr msg) ->
     r = Done ("", Some (ErrOther msg))).
Proof.
  unfold GetKGQueryResult. kg_unfold.
  destruct (service_fault e) as [f|]; simpl.
  { split_and!; try done. by intros msg [[= ->] | [? _]]. }
  destruct (search e _) as [items|msg]; simpl.
  2:{ split_and!; try done. by intros msg' [? | [_ [= ->]]]. }
  destruct items as [|[| | | | |item] items]; simpl.
  all: try (split_and!; try done; by intros msg' [? | [_ ?]]).
  - destruct (MarshalIndent None); simpl.
    split_and!; try done. by intros msg' [? | [_ ?]].
  - destruct (index item "result") as [| | | | |result]; simpl.
    all: try (split_and!; try done; by intros msg' [? | [_ ?]]).
    destruct (MarshalIndent (Some result)); simpl.
    split_and!; try done. by intros msg' [? | [_ ?]].
Qed.

(** * Counting and listing agree *)

Lemma run_page_length (q : Query) (n : Z) (st : gmap string Inventory) :
  q_offset q = 0 -> q_limit q = Some n ->
  length (run_page q st)
  = (Z.to_nat n `min`
     length (List.filter (fun kv => matches q kv.2) (map_to_list st)))%nat.
Proof.
  intros Ho Hl. unfold run_page. rewrite Ho, Hl. simpl.
  change (Z.to_nat 0) with 0%nat. rewrite drop_0.
  by rewrite length_take, sort_results_perm.
Qed.

(** X23: With the datastore answering, the first page [FindInventories]
    returns for one personality holds as many records as
    [CountInventories] counts for it, up to the page size of 50. *)
Theorem FindInventories_first_page_size e (s : State) (p : Key) :
  query_fault e = None -> get_fault e = None ->
  length (FindInventories e Background [p] "" s).1.1.1
  = (50 `min` Z.to_nat (CountInventories e Background p s).1.1)%nat.
Proof.
  intros Hq Hg.
  assert (Hcount : (CountInventories e Background p s).1.1
                   = Z.of_nat (length (List.filter
                                         (fun kv => matches (list_query [p]) kv.2)
                                         (map_to_list (store s))))).
  { unfold CountInventories. go_unfold. rewrite Hq. simpl. f_equal.
    unfold run_query. simpl. rewrite length_fmap.
    by rewrite sort_results_perm. }
  rewrite Hcount, Nat2Z.id.
  rewrite FindInventories_run. cbv zeta.
  change (Atoi "") with (0, Some ErrSyntax). cbn [fst snd].
  rewrite bool_decide_eq_true_2 by done. rewrite Offset_0.
  destruct (list_query_fields [p]) as (-> & Hl & Ho).
  unfold fault. rewrite Hq. cbn [fmap option_fmap option_map].
  pose proof (run_page_length (list_query [p]) maxItems (store s) Ho Hl) as Hlen.
  change (Z.to_nat maxItems) with 50%nat in Hlen.
  destruct (length (run_query _ _) =? 0)%nat eqn:Hz.
  - apply Nat.eqb_eq in Hz. rewrite run_query_page, length_fmap in Hz.
    rewrite <- Hlen, Hz. done.
  - rewrite nds_GetMulti_page by done. cbn [fst snd].
    by rewrite length_fmap.
Qed.

(** The theorem at the store of three records, all tagged 7. *)
Lemma FindInventories_first_page_size_witness :
  length (FindInventories Examples.env_ok Background [7] ""
                          Examples.three).1.1.1 = 3%nat.
Proof.
  etrans; [ apply (FindInventories_first_page_size Examples.env_ok
                     Examples.three 7 eq_refl eq_refl) |].
  by vm_compute.
Defined.
